(** * The SMART statistics plugin (cmk/base/plugins/agent_based/smart.py)

    A shallow embedding of the agent section parser [parse_raw_values], of the
    discovery function [discover_smart_stats] and of the check function
    [check_smart_stats], followed by the properties proved about them.

    Conventions of the embedding:
    - Python [int] is [Z]; Python [float] is the kernel's binary64 [float].
    - a [str] is a [string] whose characters are the code points below 256;
    - a disk ([Disk], a dict used only through lookup, membership and item
      assignment) is a [gmap string Z];
    - the section and the parser's dicts of disks are iterated by
      [discover_smart_stats], so they keep Python's insertion order: an
      association list with the dict operations written out ([od_get],
      [od_set], [od_setdefault], [od_update]);
    - a raised exception is a value of [exn]; code that can raise returns
      [res A];
    - the generator [check_smart_stats] is the list of what it yields
      together with the exception that ended it, if any. *)

From Stdlib Require Import ZArith String Ascii List.
From Stdlib Require Import Floats.PrimFloat Uint63.
From stdpp Require Import gmap strings list pretty.

Open Scope Z_scope.
Open Scope string_scope.

(** ** Exceptions *)

Inductive exn : Type :=
| ValueError
| KeyError (key : string)
| IndexError
| UnboundLocalError (var : string)
| GetRateError.

#[global] Instance exn_eq_dec : EqDecision exn.
Proof. solve_decision. Defined.

Inductive res (A : Type) : Type :=
| Ret (a : A)
| Raise (e : exn).
Arguments Ret {A} a.
Arguments Raise {A} e.

#[global] Instance res_eq_dec {A : Type} `{EqDecision A} : EqDecision (res A).
Proof. solve_decision. Defined.

#[global] Instance res_ret : MRet res := λ A a, Ret a.

#[global] Instance res_bind : MBind res := λ A B k r,
  match r with
  | Ret a => k a
  | Raise e => Raise e
  end.

Definition or_raise {A : Type} (e : exn) (o : option A) : res A :=
  match o with
  | Some a => Ret a
  | None => Raise e
  end.

(** ** The Python string methods and builtins the plugin calls *)

Module Py.

(** [str.isspace] on the code points below 256. *)
Definition isspace (c : ascii) : bool :=
  let n := nat_of_ascii c in
  ((9 <=? n) && (n <=? 13) || (28 <=? n) && (n <=? 32) || (n =? 133) || (n =? 160))%nat.

Fixpoint lstrip (s : string) : string :=
  match s with
  | EmptyString => EmptyString
  | String c s' => if isspace c then lstrip s' else s
  end.

Fixpoint rstrip (s : string) : string :=
  match s with
  | EmptyString => EmptyString
  | String c s' =>
      match rstrip s' with
      | EmptyString => if isspace c then EmptyString else String c EmptyString
      | r => String c r
      end
  end.

(** [s.strip()] *)
Definition strip (s : string) : string := rstrip (lstrip s).

(** [s.split(sep)] for a separator of one character. *)
Fixpoint split (sep : ascii) (s : string) : list string :=
  match s with
  | EmptyString => [EmptyString]
  | String c s' =>
      if Ascii.eqb c sep then EmptyString :: split sep s'
      else match split sep s' with
           | h :: t => String c h :: t
           | [] => [String c EmptyString]
           end
  end.

(** [s.split(sep, maxsplit=1)]: the text before the first separator and,
    when there is one, the text after it. *)
Fixpoint split1 (sep : ascii) (s : string) : string * option string :=
  match s with
  | EmptyString => (EmptyString, None)
  | String c s' =>
      if Ascii.eqb c sep then (EmptyString, Some s')
      else let '(h, t) := split1 sep s' in (String c h, t)
  end.

(** [s.split()]: the maximal runs of characters that are not whitespace. *)
Fixpoint words (s : string) : list string :=
  match s with
  | EmptyString => []
  | String c s' =>
      if isspace c then words s'
      else match s' with
           | EmptyString => [String c EmptyString]
           | String c' _ =>
               if isspace c' then String c EmptyString :: words s'
               else match words s' with
                    | h :: t => String c h :: t
                    | [] => [String c EmptyString]
                    end
           end
  end.

(** [s.replace(old, new)] for an [old] of one character. *)
Fixpoint replace (old : ascii) (new : string) (s : string) : string :=
  match s with
  | EmptyString => EmptyString
  | String c s' =>
      if Ascii.eqb c old then new +:+ replace old new s'
      else String c (replace old new s')
  end.

(** [sub in s] *)
Fixpoint contains (sub s : string) : bool :=
  String.prefix sub s ||
  match s with
  | EmptyString => false
  | String _ s' => contains sub s'
  end.

(** [sep.join(l)] *)
Definition join (sep : string) (l : list string) : string := String.concat sep l.

(** [s.lower()] on the letters A to Z, the only capitals of the registry's
    names. *)
Definition lower_char (c : ascii) : ascii :=
  let n := nat_of_ascii c in
  if ((65 <=? n) && (n <=? 90))%nat then ascii_of_nat (n + 32) else c.

Fixpoint lower (s : string) : string :=
  match s with
  | EmptyString => EmptyString
  | String c s' => String (lower_char c) (lower s')
  end.

(** The value of a digit in a base up to 36. *)
Definition digit_value (base : Z) (c : ascii) : option Z :=
  let n := Z.of_nat (nat_of_ascii c) in
  let d := if ((48 <=? n) && (n <=? 57))%Z then Some (n - 48)
           else if ((97 <=? n) && (n <=? 122))%Z then Some (n - 87)
           else if ((65 <=? n) && (n <=? 90))%Z then Some (n - 55)
           else None in
  match d with
  | Some v => if (v <? base)%Z then Some v else None
  | None => None
  end.

(** Digits with single underscores between them: at least one digit, no
    underscore first, last or doubled. [prev] tells that the character just
    read was a digit. *)
Fixpoint digits (base : Z) (s : string) (acc : Z) (prev : bool) : option Z :=
  match s with
  | EmptyString => if prev then Some acc else None
  | String c s' =>
      if Ascii.eqb c "_" then (if prev then digits base s' acc false else None)
      else match digit_value base c with
           | Some d => digits base s' (acc * base + d) true
           | None => None
           end
  end.

Definition signed (body : string → option Z) (s : string) : option Z :=
  match s with
  | String "-" s' => Z.opp <$> body s'
  | String "+" s' => body s'
  | _ => body s
  end.

(** The digits of a numeral, its underscores left out. *)
Fixpoint count_digits (s : string) : nat :=
  match s with
  | EmptyString => 0
  | String c s' => if Ascii.eqb c "_" then count_digits s' else S (count_digits s')
  end.

(** [sys.get_int_max_str_digits()], as the interpreter starts. *)
Definition max_str_digits : nat := 4300.

(** [int(s)]: [None] is [ValueError], also the one for a decimal numeral
    of more than [max_str_digits] digits. *)
Definition int (s : string) : option Z :=
  signed (λ b, if (max_str_digits <? count_digits b)%nat then None
               else digits 10 b 0 false)
         (strip s).

(** [int(s, 16)]: an optional [0x] or [0X] after the sign, which one
    underscore may follow. *)
Definition int16 (s : string) : option Z :=
  signed (λ b,
    match b with
    | String "0" (String x b') =>
        if Ascii.eqb x "x" || Ascii.eqb x "X"
        then match b' with
             | String "_" b'' => digits 16 b'' 0 false
             | _ => digits 16 b' 0 false
             end
        else digits 16 b 0 false
    | _ => digits 16 b 0 false
    end) (strip s).

(** [str(n)] and [("%d" % n)] for an [int]. *)
Definition str (n : Z) : string := pretty n.

End Py.

(** ** Dicts that keep insertion order *)

Section ordered_dict.
Context {V : Type}.

(** [d.get(k)] *)
Fixpoint od_get (k : string) (d : list (string * V)) : option V :=
  match d with
  | [] => None
  | (k', v) :: d' => if String.eqb k k' then Some v else od_get k d'
  end.

(** [d[k] = v]: a present key keeps its place. *)
Fixpoint od_set (k : string) (v : V) (d : list (string * V)) : list (string * V) :=
  match d with
  | [] => [(k, v)]
  | (k', v') :: d' =>
      if String.eqb k k' then (k, v) :: d' else (k', v') :: od_set k v d'
  end.

(** [d.setdefault(k, v)], the dict afterwards. *)
Definition od_setdefault (k : string) (v : V) (d : list (string * V)) : list (string * V) :=
  match od_get k d with
  | Some _ => d
  | None => od_set k v d
  end.

(** [{**d1, **d2}] *)
Definition od_update (d1 d2 : list (string * V)) : list (string * V) :=
  foldl (λ acc kv, od_set kv.1 kv.2 acc) d1 d2.
End ordered_dict.

(** ** The attribute registry *)

Inductive DiskAttribute : Type :=
| REALLOCATED_SECTORS
| POWER_ON_HOURS
| SPIN_RETRIES
| POWER_CYCLES
| END_TO_END_ERRORS
| UNCORRECTABLE_ERRORS
| COMMAND_TIMEOUT_COUNTER
| TEMPERATURE
| REALLOCATED_EVENTS
| PENDING_SECTORS
| UDMA_CRC_ERRORS
| CRC_ERRORS
| CRITICAL_WARNING
| MEDIA_AND_DATA_INTEGRITY_ERRORS
| AVAILABLE_SPARE
| PERCENTAGE_USED
| ERROR_INFORMATION_LOG_ENTRIES
| DATA_UNITS_READ
| DATA_UNITS_WRITTEN.

#[global] Instance DiskAttribute_eq_dec : EqDecision DiskAttribute.
Proof. solve_decision. Defined.

(** [for attribute in DiskAttribute]: the members in definition order. *)
Definition all_attributes : list DiskAttribute :=
  [ REALLOCATED_SECTORS; POWER_ON_HOURS; SPIN_RETRIES; POWER_CYCLES;
    END_TO_END_ERRORS; UNCORRECTABLE_ERRORS; COMMAND_TIMEOUT_COUNTER;
    TEMPERATURE; REALLOCATED_EVENTS; PENDING_SECTORS; UDMA_CRC_ERRORS;
    CRC_ERRORS; CRITICAL_WARNING; MEDIA_AND_DATA_INTEGRITY_ERRORS;
    AVAILABLE_SPARE; PERCENTAGE_USED; ERROR_INFORMATION_LOG_ENTRIES;
    DATA_UNITS_READ; DATA_UNITS_WRITTEN ].

(** The [name] field of the member's [DiskAttributeItem] (the tuple field
    comes before [Enum.name] in the method resolution order, as the keys of
    the doctest of [parse_raw_values] show). *)
Definition name (a : DiskAttribute) : string :=
  match a with
  | REALLOCATED_SECTORS => "Reallocated_Sectors"
  | POWER_ON_HOURS => "Power_On_Hours"
  | SPIN_RETRIES => "Spin_Retries"
  | POWER_CYCLES => "Power_Cycles"
  | END_TO_END_ERRORS => "End-to-End_Errors"
  | UNCORRECTABLE_ERRORS => "Uncorrectable_Errors"
  | COMMAND_TIMEOUT_COUNTER => "Command_Timeout_Counter"
  | TEMPERATURE => "Temperature"
  | REALLOCATED_EVENTS => "Reallocated_Events"
  | PENDING_SECTORS => "Pending_Sectors"
  | UDMA_CRC_ERRORS => "UDMA_CRC_Errors"
  | CRC_ERRORS => "CRC_Errors"
  | CRITICAL_WARNING => "Critical_Warning"
  | MEDIA_AND_DATA_INTEGRITY_ERRORS => "Media_and_Data_Integrity_Errors"
  | AVAILABLE_SPARE => "Available_Spare"
  | PERCENTAGE_USED => "Percentage_Used"
  | ERROR_INFORMATION_LOG_ENTRIES => "Error_Information_Log_Entries"
  | DATA_UNITS_READ => "Data_Units_Read"
  | DATA_UNITS_WRITTEN => "Data_Units_Written"
  end.

Definition capture_on_discovery (a : DiskAttribute) : bool :=
  match a with
  | REALLOCATED_SECTORS | SPIN_RETRIES | END_TO_END_ERRORS
  | UNCORRECTABLE_ERRORS | COMMAND_TIMEOUT_COUNTER | REALLOCATED_EVENTS
  | PENDING_SECTORS | UDMA_CRC_ERRORS | CRC_ERRORS | CRITICAL_WARNING
  | MEDIA_AND_DATA_INTEGRITY_ERRORS => true
  | POWER_ON_HOURS | POWER_CYCLES | TEMPERATURE | AVAILABLE_SPARE
  | PERCENTAGE_USED | ERROR_INFORMATION_LOG_ENTRIES | DATA_UNITS_READ
  | DATA_UNITS_WRITTEN => false
  end.

Definition MAX_COMMAND_TIMEOUTS_PER_HOUR : Z := 100.

Definition CRC_ERRORS_ID : Z := 199.

Definition ATA_ID_TO_DISK_ATTRIBUTE (id : Z) : option DiskAttribute :=
  match id with
  | 5 => Some REALLOCATED_SECTORS
  | 9 => Some POWER_ON_HOURS
  | 10 => Some SPIN_RETRIES
  | 12 => Some POWER_CYCLES
  | 184 => Some END_TO_END_ERRORS
  | 187 => Some UNCORRECTABLE_ERRORS
  | 188 => Some COMMAND_TIMEOUT_COUNTER
  | 194 => Some TEMPERATURE
  | 196 => Some REALLOCATED_EVENTS
  | 197 => Some PENDING_SECTORS
  | 199 => Some CRC_ERRORS
  | _ => None
  end.

(** ** The parser *)

Abbreviation Disk := (gmap string Z).
Abbreviation Disks := (list (string * gmap string Z)).

(** [int(value)], or 0 on [ValueError]. *)
Definition int_or_zero (value : string) : Z := default 0 (Py.int value).

(** [_set_int_or_zero(disk, key, value)], the disk afterwards. *)
Definition _set_int_or_zero (disk : Disk) (key value : string) : Disk :=
  <[key := int_or_zero value]> disk.

(** The two assignments under [try] for [REALLOCATED_EVENTS]: the first
    conversion that fails leaves the rest undone. *)
Definition capture_normalized (disk : Disk) (value threshold : string) : Disk :=
  match Py.int value with
  | None => disk
  | Some v =>
      let disk := <["_normalized_value_Reallocated_Events" := v]> disk in
      match Py.int threshold with
      | None => disk
      | Some t => <["_normalized_threshold_Reallocated_Events" := t]> disk
      end
  end.

(** The body of the loop of [_parse_ata_lines] after [setdefault], as what it
    does to [disk], the dict stored under the line's device path. *)
Definition ata_attribute (disk : Disk)
    (ID attribute_name value threshold raw_value : string) : res Disk :=
  if String.eqb attribute_name "Unknown_Attribute" then Ret disk
  else
    id ← or_raise ValueError (Py.int ID) ;
    if (id =? CRC_ERRORS_ID)%Z && String.eqb attribute_name "UDMA_CRC_Error_Count"
    then Ret (_set_int_or_zero disk (name UDMA_CRC_ERRORS) raw_value)
    else
      match ATA_ID_TO_DISK_ATTRIBUTE id with
      | None =>
          match disk !! attribute_name with
          | Some _ => Ret disk
          | None => Ret (_set_int_or_zero disk attribute_name raw_value)
          end
      | Some lookup_attribute =>
          let disk := _set_int_or_zero disk (name lookup_attribute) raw_value in
          if decide (lookup_attribute = REALLOCATED_EVENTS)
          then Ret (capture_normalized disk value threshold)
          else Ret disk
      end.

(** One iteration of the loop of [_parse_ata_lines]: the line is unpacked
    into thirteen fields and a rest. *)
Definition ata_line (ata_disks : Disks) (line : list string) : res Disks :=
  match line with
  | disk_path :: _disk_type :: _disk_name :: ID :: attribute_name :: _flag
    :: value :: _worst :: threshold :: _type :: _updated :: _when_failed
    :: raw_value :: _raw_value_info =>
      let ata_disks := od_setdefault disk_path ∅ ata_disks in
      disk ← ata_attribute (default ∅ (od_get disk_path ata_disks))
               ID attribute_name value threshold raw_value ;
      Ret (od_set disk_path disk ata_disks)
  | _ => Raise ValueError
  end.

Fixpoint ata_loop (ata_disks : Disks) (ata_lines : list (list string)) : res Disks :=
  match ata_lines with
  | [] => Ret ata_disks
  | line :: rest => ata_disks ← ata_line ata_disks line ; ata_loop ata_disks rest
  end.

Definition _parse_ata_lines (ata_lines : list (list string)) : res Disks :=
  ata_loop [] ata_lines.

(** The state of the loop of [_parse_nvme_lines]: the dict of disks and the
    key under which the dict bound to the variable [disk] is stored ([None]
    while [disk] is unbound). *)
Definition nvme_state : Type := Disks * option string.

(** [disk[key] = v] through the variable [disk]. *)
Definition nvme_assign (st : nvme_state) (key : string) (v : Z) : res nvme_state :=
  match st.2 with
  | None => Raise (UnboundLocalError "disk")
  | Some path =>
      Ret (od_set path (<[key := v]> (default ∅ (od_get path st.1))) st.1, st.2)
  end.

(** [int(value.split()[0]) * 512000] *)
Definition data_units (value : string) : res Z :=
  token ← or_raise IndexError (head (Py.words value)) ;
  n ← or_raise ValueError (Py.int token) ;
  Ret (n * 512000).

Definition nvme_line (st : nvme_state) (line : list string) : res nvme_state :=
  match line with
  | [] => Raise IndexError
  | line0 :: _ =>
      if Py.contains "/dev" line0
      then Ret (od_setdefault line0 ∅ st.1, Some line0)
      else
        match Py.strip <$> Py.split ":" (Py.join " " line) with
        | [field; value] =>
            let key := Py.replace " " "_" field in
            let value := Py.replace "," "" (Py.replace "." "" (Py.replace "%" "" value)) in
            if String.eqb field "Temperature" then
              _ ← or_raise (UnboundLocalError "disk") st.2 ;
              token ← or_raise IndexError (head (Py.words value)) ;
              nvme_assign st key (int_or_zero token)
            else if String.eqb field "Critical Warning" then
              v ← or_raise ValueError (Py.int16 value) ;
              nvme_assign st key v
            else if String.eqb field "Data Units Read" then
              v ← data_units value ;
              nvme_assign st key v
            else if String.eqb field "Data Units Written" then
              v ← data_units value ;
              nvme_assign st key v
            else
              nvme_assign st key (int_or_zero value)
        | _ => Raise ValueError
        end
  end.

Fixpoint nvme_loop (st : nvme_state) (nvme_lines : list (list string)) : res nvme_state :=
  match nvme_lines with
  | [] => Ret st
  | line :: rest => st ← nvme_line st line ; nvme_loop st rest
  end.

Definition _parse_nvme_lines (nvme_lines : list (list string)) : res Disks :=
  st ← nvme_loop ([], None) nvme_lines ; Ret st.1.

Definition is_ata_line (line : list string) : bool := (13 <=? length line)%nat.

Definition is_nvme_line (line : list string) : bool :=
  ((3 <=? length line) && (length line <=? 6))%nat.

Definition parse_raw_values (string_table : list (list string)) : res Disks :=
  ata ← _parse_ata_lines (List.filter is_ata_line string_table) ;
  nvme ← _parse_nvme_lines (List.filter is_nvme_line string_table) ;
  Ret (od_update ata nvme).

(** ** The agent based API

    What the plugin imports from [agent_based_api.v1]: the value store with
    [get_rate], which may raise and which updates the store either way, and
    the three renderers, total functions on integers. *)

Class AgentBasedAPI : Type := {
  value_store : Type;
  get_rate : value_store → string → float → Z → value_store * res float;
  render_timespan : Z → string;
  render_percent : Z → string;
  render_bytes : Z → string;
}.

Inductive State : Type := OK | WARN | CRIT | UNKNOWN.

#[global] Instance State_eq_dec : EqDecision State.
Proof. solve_decision. Defined.

(** What a check function yields. *)
Inductive CheckOutput : Type :=
| Result (state : State) (summary : string)
| Metric (metric_name : string) (value : Z).

(** What a discovery function yields. *)
Record Service : Type := { item : string; parameters : gmap string Z }.

(** ** Discovery *)

(** The dict comprehension of [discover_smart_stats]. *)
Definition captured (disk : Disk) : gmap string Z :=
  foldl (λ acc f,
           if capture_on_discovery f
           then match disk !! name f with
                | Some v => <[name f := v]> acc
                | None => acc
                end
           else acc)
        ∅ all_attributes.

Definition discover_smart_stats (section : Disks) : list Service :=
  omap (λ kv, let captured := captured kv.2 in
              if decide (captured = ∅) then None
              else Some {| item := kv.1; parameters := captured |})
       section.

(** ** The check *)

Definition _display_attribute_name (attribute : DiskAttribute) : string :=
  match attribute with
  | CRC_ERRORS => "CRC errors"
  | UDMA_CRC_ERRORS => "UDMA CRC errors"
  | POWER_ON_HOURS => "Powered on"
  | _ =>
      match Py.split1 "_" (name attribute) with
      | (first, Some rest) => first +:+ " " +:+ Py.replace "_" " " (Py.lower rest)
      | (only_one, None) => only_one
      end
  end.

(** [float(n)] for [0 <= n < 2 ** 53]. *)
Definition float_of_int (n : Z) : float := PrimFloat.of_uint63 (Uint63.of_Z n).

(** [MAX_COMMAND_TIMEOUTS_PER_HOUR / (60 * 60)], the true division of two
    integers that floats represent exactly. *)
Definition max_command_timeouts_per_second : float :=
  (float_of_int MAX_COMMAND_TIMEOUTS_PER_HOUR / float_of_int (60 * 60))%float.

(** [infotext + " (%s)" % ", ".join(hints) if hints else infotext] *)
Definition summary_text (infotext : string) (hints : list string) : string :=
  match hints with
  | [] => infotext
  | _ => infotext +:+ " (" +:+ Py.join ", " hints +:+ ")"
  end.

Definition norm_value_key : string := "_normalized_value_" +:+ name REALLOCATED_EVENTS.
Definition norm_threshold_key : string := "_normalized_threshold_" +:+ name REALLOCATED_EVENTS.

(** The block under [if attribute is DiskAttribute.REALLOCATED_EVENTS]:
    [None] is the [except KeyError] branch. *)
Definition reallocated_events (disk : Disk) (state : State) (hints : list string)
    : option (State * list string) :=
  norm_value ← disk !! norm_value_key;
  norm_threshold ← disk !! norm_threshold_key;
  let hint := "normalized value: " +:+ Py.str norm_value in
  if (norm_value <=? norm_threshold)%Z
  then Some (CRIT, (hints ++ [hint +:+ " (!!)"])%list)
  else Some (state, (hints ++ [hint])%list).

(** The state and the hints the block under
    [if attribute is DiskAttribute.COMMAND_TIMEOUT_COUNTER] assigns. *)
Definition command_timeout (rate : float) (ref_value : Z) : State * list string :=
  let state := if (rate <? max_command_timeouts_per_second)%float then OK else CRIT in
  (state,
   if decide (state = OK) then []
   else ["counter increased more than " +:+ Py.str MAX_COMMAND_TIMEOUTS_PER_HOUR
         +:+ " counts / h (!!). " +:+ "Value during discovery was: "
         +:+ Py.str ref_value]).

Section check.
Context `{API : AgentBasedAPI}.

Definition renderer (a : DiskAttribute) : Z → string :=
  match a with
  | POWER_ON_HOURS => λ h, render_timespan (h * 3600)
  | AVAILABLE_SPARE | PERCENTAGE_USED => render_percent
  | DATA_UNITS_READ | DATA_UNITS_WRITTEN => render_bytes
  | _ => Py.str
  end.

Definition infotext_of (attribute : DiskAttribute) (value : Z) : string :=
  _display_attribute_name attribute +:+ ": " +:+ renderer attribute value.

(** One iteration of the loop of [check_smart_stats]: what it yields, or
    the exception that leaves the loop, and the value store afterwards. *)
Definition check_attribute (attribute : DiskAttribute) (params : gmap string Z)
    (disk : Disk) (now : float) (vs : value_store)
    : value_store * res (list CheckOutput) :=
  if decide (attribute = TEMPERATURE) then (vs, Ret [])
  else
    match disk !! name attribute with
    | None => (vs, Ret [])
    | Some value =>
        let infotext := infotext_of attribute value in
        let ref_value :=
          if decide (attribute = AVAILABLE_SPARE)
          then threshold ← or_raise (KeyError "Available_Spare_Threshold")
                                    (disk !! "Available_Spare_Threshold");
               Ret (Some threshold)
          else Ret (params !! name attribute) in
        match ref_value with
        | Raise e => (vs, Raise e)
        | Ret None => (vs, Ret [Result OK infotext; Metric (name attribute) value])
        | Ret (Some ref_value) =>
            let state :=
              if decide (attribute = AVAILABLE_SPARE)
              then (if (value <? ref_value)%Z then CRIT else OK)
              else (if (value >? ref_value)%Z then CRIT else OK) in
            let hints :=
              if decide (state = OK) then []
              else ["during discovery: " +:+ Py.str ref_value +:+ " (!!)"] in
            match (if decide (attribute = REALLOCATED_EVENTS)
                   then reallocated_events disk state hints
                   else Some (state, hints)) with
            | None => (vs, Ret [Result OK infotext; Metric (name attribute) value])
            | Some (state, hints) =>
                let '(vs, verdict) :=
                  if decide (attribute = COMMAND_TIMEOUT_COUNTER)
                  then let '(vs, rate) := get_rate vs "cmd_timeout" now value in
                       (vs, rate ← rate; Ret (command_timeout rate ref_value))
                  else (vs, Ret (state, hints)) in
                match verdict with
                | Raise e => (vs, Raise e)
                | Ret (state, hints) =>
                    (vs, Ret [Result state (summary_text infotext hints);
                              Metric (name attribute) value])
                end
            end
        end
    end.

(** A run of the generator: what it yielded, in order, and the exception
    that ended it, if one did. *)
Record Run : Type := {
  store : value_store;
  yielded : list CheckOutput;
  raised : option exn;
}.

Fixpoint check_loop (attributes : list DiskAttribute) (params : gmap string Z)
    (disk : Disk) (now : float) (vs : value_store) : Run :=
  match attributes with
  | [] => {| store := vs; yielded := []; raised := None |}
  | attribute :: rest =>
      match check_attribute attribute params disk now vs with
      | (vs, Raise e) => {| store := vs; yielded := []; raised := Some e |}
      | (vs, Ret outputs) =>
          let run := check_loop rest params disk now vs in
          {| store := store run; yielded := (outputs ++ yielded run)%list; raised := raised run |}
      end
  end.

(** [now] is what [time.time()] returns when the loop reaches it. *)
Definition check_smart_stats (item : string) (params : gmap string Z)
    (section : Disks) (now : float) (vs : value_store) : Run :=
  match od_get item section with
  | None => {| store := vs; yielded := []; raised := None |}
  | Some disk => check_loop all_attributes params disk now vs
  end.

(** The verdict of one iteration, when it yields one. *)
Definition verdict (r : value_store * res (list CheckOutput)) : option State :=
  match r.2 with
  | Ret (Result state _ :: _) => Some state
  | _ => None
  end.

(** [list(run)]: what a caller that collects the generator gets. *)
Definition collect (run : Run) : res (list CheckOutput) :=
  match raised run with
  | Some e => Raise e
  | None => Ret (yielded run)
  end.

End check.

Arguments infotext_of : simpl never.
Arguments summary_text : simpl never.
Arguments Py.str : simpl never.

(** The dict stored under [path], as [setdefault(path, {})] would return it. *)
Definition disk_of (path : string) (disks : Disks) : Disk :=
  default ∅ (od_get path disks).

(** ** The baseline as the specification words it

    The names of the registry attributes that are captured at discovery, and
    the part of a reading that carries those names. *)

Definition discovery_names : list string :=
  name <$> List.filter capture_on_discovery all_attributes.

Definition baseline_of (disk : Disk) : gmap string Z :=
  filter (λ kv, kv.1 ∈ discovery_names) disk.

(** ** A value store to run the check on concrete readings *)

(** Modelled from the spec: the rate state behind [get_rate], which is part
    of the agent based API and not of the plugin. It keeps the last time and
    value seen under each key; the first reading of a key, a clock that did
    not advance and a counter that went down start afresh and give no rate. *)
Definition counter_rate (vs : gmap string (float * Z)) (key : string)
    (now : float) (value : Z) : gmap string (float * Z) * res float :=
  let vs' := <[key := (now, value)]> vs in
  match vs !! key with
  | None => (vs', Raise GetRateError)
  | Some (last_time, last_value) =>
      if (value <? last_value)%Z || negb (last_time <? now)%float
      then (vs', Raise GetRateError)
      else (vs', Ret (float_of_int (value - last_value) / (now - last_time))%float)
  end.

(** Renderers that print the number and its unit. *)
Definition counter_api : AgentBasedAPI := {|
  value_store := gmap string (float * Z);
  get_rate := counter_rate;
  render_timespan := λ seconds, Py.str seconds +:+ " s";
  render_percent := λ percent, Py.str percent +:+ "%";
  render_bytes := λ bytes, Py.str bytes +:+ " B";
|}.

(** A store that saw the command timeout counter at 0 at time 0. *)
Definition seen_at_zero : gmap string (float * Z) := {[ "cmd_timeout" := (0%float, 0) ]}.

(** ** The example data of the plugin's header and doctest *)

Definition wdc_line (ID attribute_name flag value threshold type raw_value : string)
    : list string :=
  [ "/dev/sda"; "ATA"; "WDC_SSC-D0128SC-"; ID; attribute_name; flag; value; "100";
    threshold; type; "Always"; "-"; raw_value ].

Definition wdc_string_table : list (list string) :=
  [ wdc_line "1" "Raw_Read_Error_Rate" "0x000b" "100" "050" "Pre-fail" "16777215";
    wdc_line "3" "Spin_Up_Time" "0x0007" "100" "050" "Pre-fail" "0";
    wdc_line "5" "Reallocated_Sector_Ct" "0x0013" "100" "050" "Pre-fail" "0";
    wdc_line "7" "Seek_Error_Rate" "0x000b" "100" "050" "Pre-fail" "0";
    wdc_line "9" "Power_On_Hours" "0x0012" "100" "000" "Old_age" "1408";
    wdc_line "10" "Spin_Retry_Count" "0x0013" "100" "050" "Pre-fail" "0";
    wdc_line "12" "Power_Cycle_Count" "0x0012" "100" "000" "Old_age" "523";
    wdc_line "168" "Unknown_Attribute" "0x0012" "100" "000" "Old_age" "1";
    wdc_line "175" "Program_Fail_Count_Chip" "0x0003" "100" "010" "Pre-fail" "0";
    wdc_line "192" "Power-Off_Retract_Count" "0x0012" "100" "000" "Old_age" "0";
    (wdc_line "194" "Temperature_Celsius" "0x0022" "040" "000" "Old_age" "40"
       ++ ["(Lifetime"; "Min/Max"; "30/60)"])%list;
    wdc_line "197" "Current_Pending_Sector" "0x0012" "100" "000" "Old_age" "0";
    wdc_line "240" "Head_Flying_Hours" "0x0013" "100" "050" "Pre-fail" "0";
    wdc_line "170" "Unknown_Attribute" "0x0003" "100" "010" "Pre-fail" "1769478";
    wdc_line "173" "Unknown_Attribute" "0x0012" "100" "000" "Old_age" "4217788040605" ].

Definition wdc_section : Disks :=
  [ ("/dev/sda",
     list_to_map
       [ ("Head_Flying_Hours", 0); ("Pending_Sectors", 0);
         ("Power-Off_Retract_Count", 0); ("Power_Cycles", 523);
         ("Power_On_Hours", 1408); ("Program_Fail_Count_Chip", 0);
         ("Raw_Read_Error_Rate", 16777215); ("Reallocated_Sectors", 0);
         ("Seek_Error_Rate", 0); ("Spin_Retries", 0); ("Spin_Up_Time", 0);
         ("Temperature", 40) ]) ].

(** A key/value record whose warning flags are not a number in base 16. *)
Definition nvme_bad_warning : list (list string) :=
  [ ["/dev/nvme0n1"; "NVMe"; "SAMSUNG"]; ["Critical"; "Warning:"; "zz"] ].

(** Key/value records whose data units are not numbers. *)
Definition nvme_bad_units_read : list (list string) :=
  [ ["/dev/nvme0n1"; "NVMe"; "SAMSUNG"]; ["Data"; "Units"; "Read:"; "n/a"] ].

Definition nvme_bad_units_written : list (list string) :=
  [ ["/dev/nvme0n1"; "NVMe"; "SAMSUNG"]; ["Data"; "Units"; "Written:"; "n/a"] ].

(** The same record with a field of the generic path in their place. *)
Definition nvme_bad_generic : list (list string) :=
  [ ["/dev/nvme0n1"; "NVMe"; "SAMSUNG"]; ["Percentage"; "Used:"; "n/a"] ].

(** The metrics among what a check yields, each with its name and value. *)
Definition metrics (outputs : list CheckOutput) : list (string * Z) :=
  omap (λ o, match o with
             | Metric n v => Some (n, v)
             | Result _ _ => None
             end) outputs.

(** [value.replace("%", "").replace(".", "").replace(",", "")] *)
Definition nvme_value (value : string) : string :=
  Py.replace "," "" (Py.replace "." "" (Py.replace "%" "" value)).

(** * Properties *)

(** ** Strings *)

Lemma string_eqb_eq (s t : string) : String.eqb s t = bool_decide (s = t).
Proof.
  destruct (String.eqb_spec s t) as [->|Hne].
  - by rewrite bool_decide_eq_true_2.
  - by rewrite bool_decide_eq_false_2.
Qed.

(** ** Ordered dicts *)

Section ordered_dict_facts.
Context {V : Type}.
Implicit Types (d : list (string * V)) (k : string) (v : V).

Lemma od_get_set_eq k v d : od_get k (od_set k v d) = Some v.
Proof.
  induction d as [|[k' v'] d IH]; simpl.
  - by rewrite String.eqb_refl.
  - destruct (String.eqb k k') eqn:E; simpl; rewrite ?String.eqb_refl, ?E; done.
Qed.

Lemma od_get_set_ne k k' v d : k ≠ k' → od_get k' (od_set k v d) = od_get k' d.
Proof.
  intros Hne. induction d as [|[k0 v0] d IH]; simpl.
  - destruct (String.eqb_spec k' k); congruence.
  - destruct (String.eqb_spec k k0) as [->|]; simpl.
    + destruct (String.eqb_spec k' k0); congruence.
    + by rewrite IH.
Qed.

Lemma od_get_setdefault_eq k v d :
  od_get k (od_setdefault k v d) = Some (default v (od_get k d)).
Proof.
  unfold od_setdefault. destruct (od_get k d) eqn:E; simpl; [done|].
  apply od_get_set_eq.
Qed.

Lemma od_get_setdefault_ne k k' v d :
  k ≠ k' → od_get k' (od_setdefault k v d) = od_get k' d.
Proof.
  intros Hne. unfold od_setdefault. destruct (od_get k d); [done|].
  by apply od_get_set_ne.
Qed.

Lemma od_set_keys k v d :
  (od_set k v d).*1
  = match od_get k d with
    | Some _ => d.*1
    | None => (d.*1 ++ [k])%list
    end.
Proof.
  induction d as [|[k' v'] d IH]; cbn [od_set od_get]; [done|].
  destruct (String.eqb_spec k k') as [->|]; [done|].
  rewrite !fmap_cons, IH. by destruct (od_get k d).
Qed.

Lemma od_get_None k d : od_get k d = None → k ∉ d.*1.
Proof.
  induction d as [|[k' v'] d IH]; simpl; [intros _; apply not_elem_of_nil|].
  destruct (String.eqb_spec k k') as [->|Hne]; [done|].
  intros Hnone [?|?]%elem_of_cons; [done|]. by apply IH.
Qed.

(** Item assignment keeps the keys of a dict distinct. *)
Lemma od_set_NoDup k v d : NoDup d.*1 → NoDup (od_set k v d).*1.
Proof.
  intros Hnd. rewrite od_set_keys. destruct (od_get k d) eqn:Hget; [done|].
  apply NoDup_app. split; [done|]. split; [|apply NoDup_singleton].
  intros x Hx ->%list_elem_of_singleton. by apply (od_get_None _ _ Hget).
Qed.

Lemma od_setdefault_NoDup k v d : NoDup d.*1 → NoDup (od_setdefault k v d).*1.
Proof.
  intros Hnd. unfold od_setdefault. destruct (od_get k d); [done|].
  by apply od_set_NoDup.
Qed.

Lemma od_update_NoDup d1 d2 : NoDup d1.*1 → NoDup (od_update d1 d2).*1.
Proof.
  unfold od_update. revert d1.
  induction d2 as [|[k v] d2 IH]; intros d1 Hnd; simpl; [done|].
  by apply IH, od_set_NoDup.
Qed.

Lemma od_get_elem_of k v d : NoDup d.*1 → (k, v) ∈ d → od_get k d = Some v.
Proof.
  induction d as [|[k' v'] d IH]; simpl; intros Hnd Hin.
  - by apply elem_of_nil in Hin.
  - apply NoDup_cons in Hnd as [Hk' Hnd].
    apply elem_of_cons in Hin as [Heq|Hin].
    + injection Heq as <- <-. by rewrite String.eqb_refl.
    + destruct (String.eqb_spec k k') as [->|]; [|by apply IH].
      exfalso. apply Hk'. apply list_elem_of_fmap. by exists (k', v).
Qed.

End ordered_dict_facts.

(** ** The parser *)

(** A line of the tabular dialect updates the dict of its device and no
    other: whatever [ata_attribute] makes of the device's dict is stored
    under the device path. *)
Lemma ata_line_stores (ata_disks : Disks)
    (disk_path f1 f2 ID attribute_name f5 value f7 threshold f9 f10 f11 raw_value : string)
    (info : list string) (disk' : Disk) :
  ata_attribute (disk_of disk_path ata_disks) ID attribute_name value threshold raw_value
    = Ret disk' →
  ∃ ata_disks',
    ata_line ata_disks
      (disk_path :: f1 :: f2 :: ID :: attribute_name :: f5 :: value :: f7
         :: threshold :: f9 :: f10 :: f11 :: raw_value :: info) = Ret ata_disks'
    ∧ od_get disk_path ata_disks' = Some disk'
    ∧ ∀ other, other ≠ disk_path → od_get other ata_disks' = od_get other ata_disks.
Proof.
  intros Hattr. eexists. split; [|split].
  - unfold ata_line. rewrite od_get_setdefault_eq. simpl.
    unfold disk_of in Hattr. rewrite Hattr. reflexivity.
  - apply od_get_set_eq.
  - intros other Hne. rewrite od_get_set_ne by done.
    by rewrite od_get_setdefault_ne.
Qed.

(** A raw value never makes the tabular sub-parser raise: only an attribute
    code that is not a number does. *)
Lemma ata_attribute_raise_inv (disk : Disk)
    (ID attribute_name value threshold raw_value : string) (e : exn) :
  ata_attribute disk ID attribute_name value threshold raw_value = Raise e →
  Py.int ID = None ∧ e = ValueError.
Proof.
  unfold ata_attribute.
  destruct (String.eqb attribute_name "Unknown_Attribute"); [done|].
  destruct (Py.int ID) as [id|]; simpl; [|by intros [= <-]].
  destruct ((id =? CRC_ERRORS_ID)%Z && _); [done|].
  destruct (ATA_ID_TO_DISK_ATTRIBUTE id) as [a|].
  - by destruct (decide (a = REALLOCATED_EVENTS)).
  - by destruct (disk !! attribute_name).
Qed.

(** The section that the parser returns has one entry per device. *)
Lemma ata_loop_NoDup (ata_lines : list (list string)) (ata_disks ata_disks' : Disks) :
  NoDup ata_disks.*1 → ata_loop ata_disks ata_lines = Ret ata_disks' →
  NoDup ata_disks'.*1.
Proof.
  revert ata_disks. induction ata_lines as [|line rest IH]; intros ata_disks Hnd; simpl.
  - by intros [= <-].
  - destruct (ata_line ata_disks line) as [disks1|e] eqn:Hline; simpl; [|done].
    apply IH. unfold ata_line in Hline.
    do 13 (destruct line as [|? line]; [done|]).
    destruct (ata_attribute _ _ _ _ _ _) as [disk|]; simpl in Hline; [|done].
    injection Hline as <-. by apply od_set_NoDup, od_setdefault_NoDup.
Qed.

Lemma nvme_loop_NoDup (nvme_lines : list (list string)) (st st' : nvme_state) :
  NoDup st.1.*1 → nvme_loop st nvme_lines = Ret st' → NoDup st'.1.*1.
Proof.
  assert (∀ (st0 st1 : nvme_state) key v,
            NoDup st0.1.*1 → nvme_assign st0 key v = Ret st1 → NoDup st1.1.*1)
    as Hassign.
  { intros st0 st1 key v Hnd. unfold nvme_assign.
    destruct st0.2; [|done]. intros [= <-]. by apply od_set_NoDup. }
  revert st. induction nvme_lines as [|line rest IH]; intros st Hnd; simpl.
  - by intros [= <-].
  - destruct (nvme_line st line) as [st1|e] eqn:Hline; simpl; [|done].
    apply IH. unfold nvme_line in Hline.
    destruct line as [|line0 line]; [done|].
    destruct (Py.contains "/dev" line0).
    { injection Hline as <-. by apply od_setdefault_NoDup. }
    destruct (Py.strip <$> _) as [|field [|value [|??]]]; try done.
    repeat (destruct (String.eqb field _));
      repeat match type of Hline with
             | context [or_raise ?e ?o] => destruct o; simpl in Hline; [|done]
             | context [data_units ?v] => destruct (data_units v); simpl in Hline; [|done]
             end;
      by eapply Hassign.
Qed.

Lemma parse_raw_values_NoDup (string_table : list (list string)) (section : Disks) :
  parse_raw_values string_table = Ret section → NoDup section.*1.
Proof.
  unfold parse_raw_values, _parse_ata_lines, _parse_nvme_lines.
  destruct (ata_loop [] _) as [ata|] eqn:Hata; simpl; [|done].
  destruct (nvme_loop ([], None) _) as [st|] eqn:Hnvme; simpl; [|done].
  intros [= <-]. apply od_update_NoDup.
  apply (ata_loop_NoDup _ [] _ (NoDup_nil_2) Hata).
Qed.

(** C3. Parsing the fifteen lines recorded for /dev/sda in the plugin's
    header gives exactly one device with the twelve attributes of the
    doctest: the three lines named Unknown_Attribute leave no entry, and
    every raw value is stored as the integer it spells. *)
Theorem parse_raw_values_wdc_example :
  parse_raw_values wdc_string_table = Ret wdc_section.
Proof. compute_done. Qed.

(** C7. The key/value sub-parser converts the warning flags and the two
    data units fields with a bare [int]: a value that is not a number makes
    [parse_raw_values] raise [ValueError] and no section is returned, where
    the same value in a field of the generic path is stored as 0. *)
Theorem nvme_unguarded_conversions_raise :
  parse_raw_values nvme_bad_warning = Raise ValueError
  ∧ parse_raw_values nvme_bad_units_read = Raise ValueError
  ∧ parse_raw_values nvme_bad_units_written = Raise ValueError
  ∧ parse_raw_values nvme_bad_generic
    = Ret [("/dev/nvme0n1", {[ "Percentage_Used" := 0 ]})].
Proof. repeat split; compute_done. Qed.

(** C8, as stated, fails on a line of code 199 whose name is the marker
    Unknown_Attribute: the line is skipped and nothing is recorded under
    CRC_Errors. *)
Lemma code_199_unknown_attribute_is_skipped :
  Py.int "199" = Some 199
  ∧ parse_raw_values
      [wdc_line "199" "Unknown_Attribute" "0x0012" "100" "000" "Old_age" "7"]
    = Ret [("/dev/sda", ∅)].
Proof. split; compute_done. Qed.

(** C8. A tabular line whose attribute code is 199 and whose name is not the
    marker Unknown_Attribute stores the integer of its raw value in the dict
    of its device: under UDMA_CRC_Errors when the name is
    UDMA_CRC_Error_Count, under CRC_Errors for every other name. The stored
    value is the same on both paths, and no other device changes. *)
Theorem crc_code_routing (ata_disks : Disks) (line : list string)
    (disk_path ID attribute_name raw_value : string) :
  line !! 0%nat = Some disk_path →
  line !! 3%nat = Some ID →
  line !! 4%nat = Some attribute_name →
  line !! 12%nat = Some raw_value →
  Py.int ID = Some 199 →
  attribute_name ≠ "Unknown_Attribute" →
  let key := if decide (attribute_name = "UDMA_CRC_Error_Count")
             then name UDMA_CRC_ERRORS else name CRC_ERRORS in
  ∃ ata_disks',
    ata_line ata_disks line = Ret ata_disks'
    ∧ od_get disk_path ata_disks'
      = Some (<[key := int_or_zero raw_value]> (disk_of disk_path ata_disks))
    ∧ ∀ other, other ≠ disk_path → od_get other ata_disks' = od_get other ata_disks.
Proof.
  intros H0 H3 H4 H12 HID Hname key.
  do 13 (destruct line as [|? line]; [done|]).
  simpl in H0, H3, H4, H12. simplify_eq.
  apply ata_line_stores. unfold ata_attribute.
  rewrite string_eqb_eq, bool_decide_eq_false_2 by done.
  rewrite HID. simpl. rewrite string_eqb_eq. subst key.
  destruct (decide (attribute_name = "UDMA_CRC_Error_Count")).
  - by rewrite bool_decide_eq_true_2.
  - by rewrite bool_decide_eq_false_2.
Qed.

Lemma crc_code_routing_witness :
  ∃ ata_disks',
    ata_line [] (wdc_line "199" "UDMA_CRC_Error_Count" "0x003e" "200" "000" "Old_age" "3")
      = Ret ata_disks'
    ∧ od_get "/dev/sda" ata_disks' = Some (<["UDMA_CRC_Errors" := 3]> ∅)
    ∧ ∀ other, other ≠ "/dev/sda" → od_get other ata_disks' = od_get other [].
Proof.
  apply (crc_code_routing []
           (wdc_line "199" "UDMA_CRC_Error_Count" "0x003e" "200" "000" "Old_age" "3")
           "/dev/sda" "199" "UDMA_CRC_Error_Count" "3");
    first [reflexivity | discriminate].
Defined.



(** ** Discovery *)

(** The comprehension, run over any part of the registry: a key of the
    result comes from the reading when one of the attributes passed is
    captured at discovery under that name, and from the dict being filled
    otherwise. *)
Lemma captured_fold_lookup (disk acc : gmap string Z) (l : list DiskAttribute)
    (k : string) :
  foldl (λ acc f,
           if capture_on_discovery f
           then match disk !! name f with
                | Some v => <[name f := v]> acc
                | None => acc
                end
           else acc) acc l !! k
  = match (if decide (k ∈ name <$> List.filter capture_on_discovery l)
           then disk !! k else None) with
    | Some v => Some v
    | None => acc !! k
    end.
Proof.
  revert acc. induction l as [|f l IH]; intros acc; [done|].
  cbn [foldl List.filter]. rewrite IH. clear IH.
  - destruct (capture_on_discovery f) eqn:Hf; [|done].
    rewrite fmap_cons.
    destruct (decide (k ∈ name <$> List.filter capture_on_discovery l)) as [Hin|Hnin].
    + rewrite decide_True by (by apply list_elem_of_further).
      destruct (disk !! k) eqn:Hk; [done|].
      destruct (disk !! name f) eqn:Hnf; [|done].
      rewrite lookup_insert_ne; [done|]. congruence.
    + destruct (decide (k = name f)) as [->|Hne].
      * rewrite decide_True by apply list_elem_of_here.
        destruct (disk !! name f) eqn:Hnf; [|done].
        by rewrite lookup_insert_eq.
      * rewrite decide_False.
        2:{ intros [?|?]%elem_of_cons; done. }
        destruct (disk !! name f); [|done].
        by rewrite lookup_insert_ne.
Qed.

(** The dict that discovery builds is the part of the reading named by the
    attributes captured at discovery. *)
Lemma captured_baseline (disk : Disk) : captured disk = baseline_of disk.
Proof.
  apply map_eq. intros k. unfold captured. rewrite captured_fold_lookup.
  unfold baseline_of, discovery_names.
  generalize (name <$> List.filter capture_on_discovery all_attributes).
  intros names. rewrite lookup_empty. apply option_eq. intros v.
  rewrite map_lookup_filter_Some. cbn [fst].
  destruct (decide (k ∈ names)); destruct (disk !! k); intuition congruence.
Qed.

Lemma discovery_names_spec (key : string) :
  key ∈ discovery_names ↔ ∃ f, capture_on_discovery f = true ∧ name f = key.
Proof.
  unfold discovery_names. rewrite list_elem_of_fmap. split.
  - intros (f & -> & Hf%list_elem_of_In%filter_In). exists f. tauto.
  - intros (f & Hf & <-). exists f. split; [done|].
    apply list_elem_of_In, filter_In. split; [|done].
    destruct f; simpl; auto 25.
Qed.

(** C6. For a section with one entry per device, as the parser returns
    them ([parse_raw_values_NoDup]), and a device of it, discovery yields a
    service for the device exactly when the reading has an attribute that
    the registry captures at discovery; the parameters of that service are
    the reading restricted to those attributes, each with its current value
    and nothing else; and discovery reads nothing but the section, so
    running it again on the same section yields the same. *)
Theorem discovery_exact (section : Disks) (disk_name : string) (disk : Disk) :
  NoDup section.*1 →
  (disk_name, disk) ∈ section →
  ((∃ service, service ∈ discover_smart_stats section ∧ item service = disk_name)
     ↔ baseline_of disk ≠ ∅)
  ∧ (∀ service, service ∈ discover_smart_stats section →
       item service = disk_name → parameters service = baseline_of disk)
  ∧ (∀ key value,
       baseline_of disk !! key = Some value
       ↔ disk !! key = Some value
         ∧ ∃ f, capture_on_discovery f = true ∧ name f = key)
  ∧ (∀ again, again = section →
       discover_smart_stats again = discover_smart_stats section).
Proof.
  intros Hnd Hin.
  assert (∀ service, service ∈ discover_smart_stats section →
            item service = disk_name →
            parameters service = baseline_of disk ∧ baseline_of disk ≠ ∅) as Hsound.
  { intros service ([n d] & Hnd' & Hsome)%list_elem_of_omap Hitem.
    cbv beta zeta in Hsome. cbn [fst snd] in Hsome.
    destruct (decide (captured d = ∅)) as [|Hne]; [done|].
    injection Hsome as <-. cbn [item] in Hitem. subst n.
    assert (d = disk) as ->.
    { pose proof (od_get_elem_of _ _ _ Hnd Hin).
      pose proof (od_get_elem_of _ _ _ Hnd Hnd'). congruence. }
    cbn [parameters]. by rewrite <- captured_baseline. }
  split; [split|split; [|split]].
  - intros (service & Hs & Hitem). by apply (Hsound service).
  - intros Hne. exists {| item := disk_name; parameters := captured disk |}.
    split; [|done]. apply list_elem_of_omap. exists (disk_name, disk).
    split; [done|]. cbv beta zeta. cbn [fst snd].
    rewrite decide_False; [done|]. by rewrite captured_baseline.
  - intros service Hs Hitem. by apply (Hsound service).
  - intros key value. unfold baseline_of. rewrite map_lookup_filter_Some.
    cbn [fst]. by rewrite discovery_names_spec.
  - by intros again ->.
Qed.

Lemma discovery_exact_witness :
  let disk : Disk := {[ "Spin_Retries" := 0; "Temperature" := 40 ]} in
  let section : Disks := [("/dev/sda", disk)] in
  ((∃ service, service ∈ discover_smart_stats section ∧ item service = "/dev/sda")
     ↔ baseline_of disk ≠ ∅)
  ∧ (∀ service, service ∈ discover_smart_stats section →
       item service = "/dev/sda" → parameters service = baseline_of disk)
  ∧ (∀ key value,
       baseline_of disk !! key = Some value
       ↔ disk !! key = Some value
         ∧ ∃ f, capture_on_discovery f = true ∧ name f = key)
  ∧ (∀ again, again = section →
       discover_smart_stats again = discover_smart_stats section).
Proof.
  exact (discovery_exact
           [("/dev/sda", {[ "Spin_Retries" := 0; "Temperature" := 40 ]})]
           "/dev/sda" {[ "Spin_Retries" := 0; "Temperature" := 40 ]}
           ltac:(apply NoDup_singleton) ltac:(apply list_elem_of_here)).
Defined.

(** ** The check *)

Section check_facts.
Context `{API : AgentBasedAPI}.
Implicit Types (params : gmap string Z) (disk : Disk) (now : float)
  (vs : value_store) (attribute : DiskAttribute).

(** Only two iterations can raise: the one of the spare capacity, on a
    reading without its threshold, and the one of the command timeouts,
    with whatever [get_rate] raises. *)
Lemma check_attribute_raise_inv attribute params disk now vs vs' (e : exn) :
  check_attribute attribute params disk now vs = (vs', Raise e) →
  (attribute = AVAILABLE_SPARE ∧ e = KeyError "Available_Spare_Threshold" ∧ vs' = vs)
  ∨ (attribute = COMMAND_TIMEOUT_COUNTER
     ∧ ∃ value, get_rate vs "cmd_timeout" now value = (vs', Raise e)).
Proof.
  unfold check_attribute.
  destruct (decide (attribute = TEMPERATURE)); [done|].
  destruct (disk !! name attribute) as [value|]; [|done].
  destruct (decide (attribute = AVAILABLE_SPARE)) as [->|Hspare].
  - destruct (disk !! "Available_Spare_Threshold"); simpl.
    + by repeat case_decide.
    + intros [= <- <-]. by left.
  - simpl. destruct (params !! name attribute) as [ref_value|]; [|done].
    destruct (decide (attribute = REALLOCATED_EVENTS)) as [->|Hevents].
    + destruct (decide (REALLOCATED_EVENTS = COMMAND_TIMEOUT_COUNTER)); [done|].
      by destruct (reallocated_events _ _ _) as [[??]|].
    + destruct (decide (attribute = COMMAND_TIMEOUT_COUNTER)) as [->|]; [|done].
      destruct (get_rate vs "cmd_timeout" now value) as [vs0 [rate|e0]] eqn:Hrate;
        simpl; [by destruct (command_timeout rate ref_value)|].
      intros [= <- <-]. right. eauto.
Qed.

(** The loop stops at the first iteration that raises. *)
Lemma check_loop_raised_inv (attributes : list DiskAttribute) params disk now vs e :
  raised (check_loop attributes params disk now vs) = Some e →
  ∃ attribute vs0 vs1,
    attribute ∈ attributes
    ∧ check_attribute attribute params disk now vs0 = (vs1, Raise e).
Proof.
  revert vs. induction attributes as [|a rest IH]; intros vs; simpl; [done|].
  destruct (check_attribute a params disk now vs) as [vs1 [outputs|e0]] eqn:Ha; simpl.
  - intros (attribute & vs0 & vs2 & Hin & Hraise)%IH.
    exists attribute, vs0, vs2. split; [by apply list_elem_of_further|done].
  - intros [= <-]. exists a, vs, vs1. split; [apply list_elem_of_here|done].
Qed.

Lemma check_loop_raises (attributes : list DiskAttribute) attribute params disk now vs e :
  attribute ∈ attributes →
  (∀ vs0, check_attribute attribute params disk now vs0 = (vs0, Raise e)) →
  is_Some (raised (check_loop attributes params disk now vs)).
Proof.
  intros Hin Hraise. revert vs.
  induction attributes as [|a rest IH]; intros vs; [by apply elem_of_nil in Hin|].
  simpl.
  destruct (check_attribute a params disk now vs) as [vs1 [outputs|e0]] eqn:Ha;
    simpl; [|by eexists].
  apply elem_of_cons in Hin as [->|Hin]; [|by apply IH].
  rewrite Hraise in Ha. discriminate.
Qed.


Lemma all_attributes_complete attribute : attribute ∈ all_attributes.
Proof. apply list_elem_of_In. destruct attribute; simpl; auto 25. Qed.


(** C10. On a reading that has Available_Spare and no
    Available_Spare_Threshold, the iteration for the spare capacity raises
    [KeyError], with or without a baseline among the parameters. The run of
    the check therefore ends with an exception, a caller that collects the
    generator gets no result at all, and that exception is this [KeyError]
    unless [get_rate] has raised before. *)
Theorem available_spare_without_threshold (item : string) params (section : Disks)
    disk now vs (value : Z) :
  od_get item section = Some disk →
  disk !! name AVAILABLE_SPARE = Some value →
  disk !! "Available_Spare_Threshold" = None →
  (∀ params' vs',
     check_attribute AVAILABLE_SPARE params' disk now vs'
     = (vs', Raise (KeyError "Available_Spare_Threshold")))
  ∧ (∃ e, collect (check_smart_stats item params section now vs) = Raise e)
  ∧ ((∀ vs0 v e, (get_rate vs0 "cmd_timeout" now v).2 ≠ Raise e) →
     collect (check_smart_stats item params section now vs)
     = Raise (KeyError "Available_Spare_Threshold")).
Proof.
  intros Hitem Hvalue Hthr.
  assert (∀ params' vs',
            check_attribute AVAILABLE_SPARE params' disk now vs'
            = (vs', Raise (KeyError "Available_Spare_Threshold"))) as Hraise.
  { intros params' vs'. unfold check_attribute. simpl.
    simpl in Hvalue. by rewrite Hvalue, Hthr. }
  assert (is_Some (raised (check_smart_stats item params section now vs)))
    as [e He].
  { unfold check_smart_stats. rewrite Hitem.
    apply (check_loop_raises _ AVAILABLE_SPARE _ _ _ _
             (KeyError "Available_Spare_Threshold")).
    - apply all_attributes_complete.
    - intros vs0. apply Hraise. }
  split; [done|]. unfold collect. rewrite He. split; [by eexists|].
  intros Hrate. f_equal.
  unfold check_smart_stats in He. rewrite Hitem in He.
  apply check_loop_raised_inv in He as (a & vs0 & vs1 & _ & Ha).
  apply check_attribute_raise_inv in Ha as [(_ & -> & _)|(_ & v & Hv)]; [done|].
  exfalso. apply (Hrate vs0 v e). by rewrite Hv.
Qed.



(** What the theorem above leaves out: a raw value above the baseline
    keeps the verdict critical when the normalized value is above its
    threshold, although the comment over the block says that the
    normalized value is what is used for this attribute. *)
Lemma reallocated_events_raw_increase params disk now vs
    (value ref_value norm_value norm_threshold : Z) :
  disk !! name REALLOCATED_EVENTS = Some value →
  params !! name REALLOCATED_EVENTS = Some ref_value →
  disk !! norm_value_key = Some norm_value →
  disk !! norm_threshold_key = Some norm_threshold →
  (ref_value < value)%Z →
  (norm_threshold < norm_value)%Z →
  check_attribute REALLOCATED_EVENTS params disk now vs
  = (vs, Ret [Result CRIT
                (summary_text (infotext_of REALLOCATED_EVENTS value)
                   ["during discovery: " +:+ Py.str ref_value +:+ " (!!)";
                    "normalized value: " +:+ Py.str norm_value]);
              Metric (name REALLOCATED_EVENTS) value]).
Proof.
  intros Hvalue Hparam Hnv Hnt Hraw Hnorm. unfold check_attribute. simpl.
  simpl in Hvalue, Hparam. rewrite Hvalue, Hparam.
  unfold reallocated_events. rewrite Hnv, Hnt. simpl.
  apply Z.leb_gt in Hnorm. rewrite Hnorm.
  assert ((value >? ref_value)%Z = true) as -> by lia.
  done.
Qed.

(** C2. For the command timeout counter, present in the reading, the
    verdict is critical only if the parameters hold a baseline for it and
    [get_rate] returns a rate that is not below 100 / 3600 per second. With
    a baseline the verdict follows from that rate and from nothing else:
    normal when the rate is below the limit and critical when it is not, in
    which case the one hint names the limit and the baseline value of
    discovery, not the rate. The value store is the one [get_rate] leaves.
    A rate of 50 / 3600 gives a normal verdict and a rate of 100000 / 3600 a
    critical one. *)
Theorem command_timeout_rate_limit params disk now vs (value : Z) :
  disk !! name COMMAND_TIMEOUT_COUNTER = Some value →
  let outcome := check_attribute COMMAND_TIMEOUT_COUNTER params disk now vs in
  (verdict outcome = Some CRIT →
     ∃ (ref_value : Z) vs' (rate : float),
       params !! name COMMAND_TIMEOUT_COUNTER = Some ref_value
       ∧ get_rate vs "cmd_timeout" now value = (vs', Ret rate)
       ∧ (rate <? max_command_timeouts_per_second)%float = false)
  ∧ (∀ (ref_value : Z) vs' (rate : float),
       params !! name COMMAND_TIMEOUT_COUNTER = Some ref_value →
       get_rate vs "cmd_timeout" now value = (vs', Ret rate) →
       let below := (rate <? max_command_timeouts_per_second)%float in
       outcome
       = (vs', Ret [Result (if below then OK else CRIT)
                      (summary_text (infotext_of COMMAND_TIMEOUT_COUNTER value)
                         (if below then []
                          else ["counter increased more than 100 counts / h (!!). Value during discovery was: "
                                +:+ Py.str ref_value]));
                    Metric (name COMMAND_TIMEOUT_COUNTER) value]))
  ∧ (∀ (ref_value : Z) vs',
       params !! name COMMAND_TIMEOUT_COUNTER = Some ref_value →
       get_rate vs "cmd_timeout" now value = (vs', Ret (50 / 3600)%float) →
       verdict outcome = Some OK)
  ∧ (∀ (ref_value : Z) vs',
       params !! name COMMAND_TIMEOUT_COUNTER = Some ref_value →
       get_rate vs "cmd_timeout" now value = (vs', Ret (100000 / 3600)%float) →
       verdict outcome = Some CRIT).
Proof.
  intros Hvalue outcome.
  assert (∀ (ref_value : Z) vs' (rate : float),
            params !! name COMMAND_TIMEOUT_COUNTER = Some ref_value →
            get_rate vs "cmd_timeout" now value = (vs', Ret rate) →
            outcome
            = (vs', Ret [Result (if (rate <? max_command_timeouts_per_second)%float
                                 then OK else CRIT)
                           (summary_text (infotext_of COMMAND_TIMEOUT_COUNTER value)
                              (if (rate <? max_command_timeouts_per_second)%float
                               then []
                               else ["counter increased more than 100 counts / h (!!). Value during discovery was: "
                                     +:+ Py.str ref_value]));
                         Metric (name COMMAND_TIMEOUT_COUNTER) value])) as Hout.
  { intros ref_value vs' rate Hparam Hrate.
    subst outcome. unfold check_attribute. simpl.
    simpl in Hvalue, Hparam. rewrite Hvalue, Hparam.
    destruct (decide ((if (value >? ref_value)%Z then CRIT else OK) = OK));
      rewrite Hrate; simpl; unfold command_timeout;
      by destruct (rate <? max_command_timeouts_per_second)%float. }
  split; [|split; [|split]].
  - destruct (params !! name COMMAND_TIMEOUT_COUNTER) as [ref_value|] eqn:Hparam.
    + destruct (get_rate vs "cmd_timeout" now value) as [vs' [rate|e]] eqn:Hrate.
      * rewrite (Hout ref_value vs' rate) by done. unfold verdict. simpl.
        destruct (rate <? max_command_timeouts_per_second)%float eqn:Hbelow;
          [done|]. intros _. by exists ref_value, vs', rate.
      * subst outcome. unfold check_attribute, verdict. simpl.
        simpl in Hvalue, Hparam. rewrite Hvalue, Hparam.
        destruct (decide ((if (value >? ref_value)%Z then CRIT else OK) = OK));
          by rewrite Hrate.
    + subst outcome. unfold check_attribute, verdict. simpl.
      simpl in Hvalue, Hparam. by rewrite Hvalue, Hparam.
  - intros ref_value vs' rate Hparam Hrate below. by apply Hout.
  - intros ref_value vs' Hparam Hrate. by rewrite (Hout _ _ _ Hparam Hrate).
  - intros ref_value vs' Hparam Hrate. by rewrite (Hout _ _ _ Hparam Hrate).
Qed.

End check_facts.

(** ** The check on concrete readings *)



(** C2, as stated, fails at the limit itself: a counter that went from 0 to
    100 in 3600 seconds has the rate 100 / 3600, which does not exceed the
    limit, and the verdict is critical. *)
Lemma rate_at_the_limit_is_critical :
  let disk : Disk := {[ "Command_Timeout_Counter" := 100 ]} in
  let params : gmap string Z := {[ "Command_Timeout_Counter" := 0 ]} in
  (get_rate (AgentBasedAPI := counter_api) seen_at_zero "cmd_timeout" 3600%float 100).2
    = Ret max_command_timeouts_per_second
  ∧ (max_command_timeouts_per_second <? max_command_timeouts_per_second)%float = false
  ∧ yielded (check_smart_stats (API := counter_api) "/dev/sda" params
               [("/dev/sda", disk)] 3600%float seen_at_zero)
    = [Result CRIT
         "Command timeout counter: 100 (counter increased more than 100 counts / h (!!). Value during discovery was: 0)";
       Metric "Command_Timeout_Counter" 100].
Proof. repeat split; vm_compute; reflexivity. Qed.

Lemma command_timeout_rate_limit_witness :
  let disk : Disk := {[ "Command_Timeout_Counter" := 50 ]} in
  let params : gmap string Z := {[ "Command_Timeout_Counter" := 0 ]} in
  let outcome := check_attribute (API := counter_api) COMMAND_TIMEOUT_COUNTER params
                   disk 3600%float seen_at_zero in
  (verdict outcome = Some CRIT →
     ∃ (ref_value : Z) vs' (rate : float),
       params !! name COMMAND_TIMEOUT_COUNTER = Some ref_value
       ∧ counter_rate seen_at_zero "cmd_timeout" 3600%float 50 = (vs', Ret rate)
       ∧ (rate <? max_command_timeouts_per_second)%float = false)
  ∧ (∀ (ref_value : Z) vs' (rate : float),
       params !! name COMMAND_TIMEOUT_COUNTER = Some ref_value →
       counter_rate seen_at_zero "cmd_timeout" 3600%float 50 = (vs', Ret rate) →
       let below := (rate <? max_command_timeouts_per_second)%float in
       outcome
       = (vs', Ret [Result (if below then OK else CRIT)
                      (summary_text
                         (infotext_of (API := counter_api) COMMAND_TIMEOUT_COUNTER 50)
                         (if below then []
                          else ["counter increased more than 100 counts / h (!!). Value during discovery was: "
                                +:+ Py.str ref_value]));
                    Metric (name COMMAND_TIMEOUT_COUNTER) 50]))
  ∧ (∀ (ref_value : Z) vs',
       params !! name COMMAND_TIMEOUT_COUNTER = Some ref_value →
       counter_rate seen_at_zero "cmd_timeout" 3600%float 50
       = (vs', Ret (50 / 3600)%float) →
       verdict outcome = Some OK)
  ∧ (∀ (ref_value : Z) vs',
       params !! name COMMAND_TIMEOUT_COUNTER = Some ref_value →
       counter_rate seen_at_zero "cmd_timeout" 3600%float 50
       = (vs', Ret (100000 / 3600)%float) →
       verdict outcome = Some CRIT).
Proof.
  exact (command_timeout_rate_limit (API := counter_api)
           {[ "Command_Timeout_Counter" := 0 ]}
           {[ "Command_Timeout_Counter" := 50 ]}
           3600%float seen_at_zero 50 eq_refl).
Defined.

(** The two readings of the specification, an hour apart: from 0 to 50 the
    verdict is normal, from 0 to 100000 it is critical. *)
Lemma command_timeouts_an_hour_apart :
  let params : gmap string Z := {[ "Command_Timeout_Counter" := 0 ]} in
  let check value :=
    yielded (check_smart_stats (API := counter_api) "/dev/sda" params
               [("/dev/sda", {[ "Command_Timeout_Counter" := value ]})]
               3600%float seen_at_zero) in
  check 50 = [Result OK "Command timeout counter: 50";
              Metric "Command_Timeout_Counter" 50]
  ∧ check 100000
    = [Result CRIT
         "Command timeout counter: 100000 (counter increased more than 100 counts / h (!!). Value during discovery was: 0)";
       Metric "Command_Timeout_Counter" 100000].
Proof. split; vm_compute; reflexivity. Qed.


Lemma available_spare_without_threshold_witness :
  let disk : Disk := {[ "Available_Spare" := 5 ]} in
  let section : Disks := [("/dev/nvme0n1", disk)] in
  let run := check_smart_stats (API := counter_api) "/dev/nvme0n1" ∅ section
               0%float (∅ : gmap string (float * Z)) in
  (∀ params' vs',
     check_attribute (API := counter_api) AVAILABLE_SPARE params' disk 0%float vs'
     = (vs', Raise (KeyError "Available_Spare_Threshold")))
  ∧ (∃ e, collect run = Raise e)
  ∧ ((∀ vs0 v e,
        (get_rate (AgentBasedAPI := counter_api) vs0 "cmd_timeout" 0%float v).2
        ≠ Raise e) →
     collect run = Raise (KeyError "Available_Spare_Threshold")).
Proof.
  exact (available_spare_without_threshold (API := counter_api) "/dev/nvme0n1" ∅
           [("/dev/nvme0n1", {[ "Available_Spare" := 5 ]})]
           {[ "Available_Spare" := 5 ]} 0%float (∅ : gmap string (float * Z)) 5
           eq_refl eq_refl eq_refl).
Defined.



(** * Further properties of the plugin *)

(** ** The parser: which lines count and which lines raise *)

Lemma length_of_lookup_12 (line : list string) (x : string) :
  line !! 12%nat = Some x → is_ata_line line = true.
Proof.
  intros H%lookup_lt_Some. unfold is_ata_line. apply Nat.leb_le. lia.
Qed.

(** X1. A line with fewer than three fields, or with seven to twelve,
    belongs to neither dialect: wherever it stands in the string table, the
    parser returns, or raises, what it does without it. *)
Theorem lines_of_other_lengths_are_ignored (before after : list (list string))
    (line : list string) :
  (length line < 3 ∨ 6 < length line < 13)%nat →
  parse_raw_values (before ++ line :: after)%list
  = parse_raw_values (before ++ after)%list.
Proof.
  intros Hlen. unfold parse_raw_values.
  rewrite !List.filter_app. cbn [List.filter].
  assert (is_ata_line line = false) as ->.
  { unfold is_ata_line. apply Nat.leb_gt. lia. }
  assert (is_nvme_line line = false) as ->; [|done].
  unfold is_nvme_line. apply andb_false_iff.
  destruct Hlen; [left; apply Nat.leb_gt|right; apply Nat.leb_gt]; lia.
Qed.

Lemma lines_of_other_lengths_are_ignored_witness :
  parse_raw_values
    (wdc_string_table ++ ["/dev/sda"; "ATA"] :: nvme_bad_generic)%list
  = parse_raw_values (wdc_string_table ++ nvme_bad_generic)%list.
Proof.
  exact (lines_of_other_lengths_are_ignored wdc_string_table nvme_bad_generic
           ["/dev/sda"; "ATA"] ltac:(left; simpl; lia)).
Defined.

(** The one way a line of the tabular dialect raises. *)
Lemma ata_attribute_raises_iff (disk : Disk)
    (ID attribute_name value threshold raw_value : string) (e : exn) :
  ata_attribute disk ID attribute_name value threshold raw_value = Raise e
  ↔ e = ValueError ∧ attribute_name ≠ "Unknown_Attribute" ∧ Py.int ID = None.
Proof.
  split.
  - intros Hraise. pose proof (ata_attribute_raise_inv _ _ _ _ _ _ _ Hraise) as [? ->].
    split; [done|]. split; [|done]. intros ->.
    unfold ata_attribute in Hraise. by rewrite String.eqb_refl in Hraise.
  - intros (-> & Hname & HID). unfold ata_attribute.
    rewrite string_eqb_eq, bool_decide_eq_false_2 by done. by rewrite HID.
Qed.

Lemma ata_loop_raises_iff (ata_lines : list (list string)) (ata_disks : Disks) (e : exn) :
  Forall (λ line, is_ata_line line = true) ata_lines →
  ata_loop ata_disks ata_lines = Raise e
  ↔ e = ValueError
    ∧ ∃ line ID attribute_name,
        line ∈ ata_lines ∧ line !! 3%nat = Some ID
        ∧ line !! 4%nat = Some attribute_name
        ∧ attribute_name ≠ "Unknown_Attribute" ∧ Py.int ID = None.
Proof.
  intros Hall. revert ata_disks.
  induction Hall as [|line rest Hline Hrest IH]; intros ata_disks.
  - simpl. split; [done|]. intros (_ & line & ? & ? & Hin & _).
    by apply elem_of_nil in Hin.
  - cbn [ata_loop].
    assert (∃ f0 f1 f2 ID attribute_name f5 value f7 threshold f9 f10 f11 raw info,
              line = f0 :: f1 :: f2 :: ID :: attribute_name :: f5 :: value :: f7
                     :: threshold :: f9 :: f10 :: f11 :: raw :: info)
      as (f0 & f1 & f2 & ID & attribute_name & f5 & value & f7 & threshold & f9
          & f10 & f11 & raw & info & ->).
    { unfold is_ata_line in Hline. apply Nat.leb_le in Hline.
      do 13 (destruct line as [|? line]; [simpl in Hline; lia|]). eauto 20. }
    cbn [ata_line]. rewrite od_get_setdefault_eq. cbn [default].
    destruct (ata_attribute _ ID attribute_name value threshold raw)
      as [disk|e0] eqn:Hattr.
    + cbn. rewrite IH. split.
      * intros (-> & line & ID' & name' & Hin & ?). split; [done|].
        exists line, ID', name'. split; [by apply list_elem_of_further|done].
      * intros (-> & line & ID' & name' & [->|Hin]%elem_of_cons & H3 & H4 & Hname & HID).
        -- simpl in H3, H4. simplify_eq.
           exfalso. enough (Raise ValueError = Ret disk) by done.
           rewrite <- Hattr. symmetry. by apply ata_attribute_raises_iff.
        -- split; [done|]. by exists line, ID', name'.
    + cbn. apply ata_attribute_raises_iff in Hattr as (-> & Hname & HID). split.
      * intros [= <-]. split; [done|].
        eexists _, ID, attribute_name. split; [apply list_elem_of_here|done].
      * by intros (-> & _).
Qed.

(** X2. The tabular sub-parser raises exactly when some line of thirteen
    or more fields has an attribute code that is not an integer and a name
    other than Unknown_Attribute; the exception is [ValueError], whatever
    the raw values are, and [parse_raw_values] then raises it too. *)
Theorem tabular_parser_raises_iff (string_table : list (list string)) (e : exn) :
  (_parse_ata_lines (List.filter is_ata_line string_table) = Raise e
   ↔ e = ValueError
     ∧ ∃ line ID attribute_name raw_value,
         line ∈ string_table ∧ line !! 3%nat = Some ID
         ∧ line !! 4%nat = Some attribute_name
         ∧ line !! 12%nat = Some raw_value
         ∧ attribute_name ≠ "Unknown_Attribute" ∧ Py.int ID = None)
  ∧ (_parse_ata_lines (List.filter is_ata_line string_table) = Raise e →
     parse_raw_values string_table = Raise e).
Proof.
  split.
  - unfold _parse_ata_lines. rewrite ata_loop_raises_iff.
    2:{ apply Forall_forall. intros line Hin%list_elem_of_In%filter_In. tauto. }
    split.
    + intros (-> & line & ID & attribute_name & Hin%list_elem_of_In%filter_In & H3 & H4 & ?).
      destruct Hin as [Hin Hata]. split; [done|].
      assert (is_Some (line !! 12%nat)) as [raw_value Hraw].
      { apply lookup_lt_is_Some. unfold is_ata_line in Hata.
        apply Nat.leb_le in Hata. lia. }
      exists line, ID, attribute_name, raw_value.
      split; [by apply list_elem_of_In|done].
    + intros (-> & line & ID & attribute_name & raw_value & Hin & H3 & H4 & H12 & ?).
      split; [done|]. exists line, ID, attribute_name.
      split; [|done]. apply list_elem_of_In, filter_In.
      split; [by apply list_elem_of_In|by eapply length_of_lookup_12].
  - intros Hraise. unfold parse_raw_values. by rewrite Hraise.
Qed.

(** ** The parser: what a tabular line of a registry code stores *)

(** X3. A tabular line whose code is in the registry, the codes 196 and
    199 apart, stores the integer of its raw value under the canonical name
    of the code whatever the textual name says (Unknown_Attribute apart) and
    whatever was stored under that name before: the last such line of a
    device wins. Nothing else in the dict of the device changes. *)
Theorem registry_code_last_occurrence_wins (ata_disks : Disks) (line : list string)
    (disk_path ID attribute_name raw_value : string) (id : Z) (a : DiskAttribute) :
  line !! 0%nat = Some disk_path →
  line !! 3%nat = Some ID →
  line !! 4%nat = Some attribute_name →
  line !! 12%nat = Some raw_value →
  Py.int ID = Some id →
  ATA_ID_TO_DISK_ATTRIBUTE id = Some a →
  a ≠ CRC_ERRORS →
  a ≠ REALLOCATED_EVENTS →
  attribute_name ≠ "Unknown_Attribute" →
  ∃ ata_disks',
    ata_line ata_disks line = Ret ata_disks'
    ∧ od_get disk_path ata_disks'
      = Some (<[name a := int_or_zero raw_value]> (disk_of disk_path ata_disks))
    ∧ ∀ other, other ≠ disk_path → od_get other ata_disks' = od_get other ata_disks.
Proof.
  intros H0 H3 H4 H12 HID Hmap Hcrc Hevents Hname.
  do 13 (destruct line as [|? line]; [done|]).
  simpl in H0, H3, H4, H12. simplify_eq.
  apply ata_line_stores. unfold ata_attribute.
  rewrite string_eqb_eq, bool_decide_eq_false_2 by done.
  rewrite HID. cbn.
  assert ((id =? CRC_ERRORS_ID)%Z = false) as ->.
  { apply Z.eqb_neq. intros ->. by injection Hmap as <-. }
  cbn. rewrite Hmap. by rewrite decide_False.
Qed.

Lemma registry_code_last_occurrence_wins_witness :
  ∃ ata_disks',
    ata_line [("/dev/sda", {[ "Power_On_Hours" := 7 ]})]
      (wdc_line "9" "Power_On_Hours_and_Msec" "0x0032" "100" "000" "Old_age" "1408")
      = Ret ata_disks'
    ∧ od_get "/dev/sda" ata_disks' = Some {[ "Power_On_Hours" := 1408 ]}
    ∧ ∀ other, other ≠ "/dev/sda"
        → od_get other ata_disks'
          = od_get other [("/dev/sda", {[ "Power_On_Hours" := 7 ]})].
Proof.
  exact (registry_code_last_occurrence_wins
           [("/dev/sda", {[ "Power_On_Hours" := 7 ]})]
           (wdc_line "9" "Power_On_Hours_and_Msec" "0x0032" "100" "000" "Old_age" "1408")
           "/dev/sda" "9" "Power_On_Hours_and_Msec" "1408" 9 POWER_ON_HOURS
           eq_refl eq_refl eq_refl eq_refl eq_refl eq_refl
           ltac:(discriminate) ltac:(discriminate) ltac:(discriminate)).
Defined.

(** X4. A tabular line of code 196 stores its raw value under
    Reallocated_Events and, beside it, the normalized pair: both columns
    when both are integers; the value column alone, the threshold key left
    as it was, when only the threshold column is not an integer; and
    neither, both keys left as they were, when the value column is not an
    integer. *)
Theorem reallocated_events_line_captures_pair (ata_disks : Disks) (line : list string)
    (disk_path ID attribute_name value threshold raw_value : string) :
  line !! 0%nat = Some disk_path →
  line !! 3%nat = Some ID →
  line !! 4%nat = Some attribute_name →
  line !! 6%nat = Some value →
  line !! 8%nat = Some threshold →
  line !! 12%nat = Some raw_value →
  Py.int ID = Some 196 →
  attribute_name ≠ "Unknown_Attribute" →
  let before := disk_of disk_path ata_disks in
  ∃ ata_disks' disk,
    ata_line ata_disks line = Ret ata_disks'
    ∧ od_get disk_path ata_disks' = Some disk
    ∧ disk !! name REALLOCATED_EVENTS = Some (int_or_zero raw_value)
    ∧ disk !! norm_value_key
      = match Py.int value with
        | Some v => Some v
        | None => before !! norm_value_key
        end
    ∧ disk !! norm_threshold_key
      = match Py.int value, Py.int threshold with
        | Some _, Some t => Some t
        | _, _ => before !! norm_threshold_key
        end.
Proof.
  intros H0 H3 H4 H6 H8 H12 HID Hname before.
  do 13 (destruct line as [|? line]; [done|]).
  simpl in H0, H3, H4, H6, H8, H12. simplify_eq.
  assert (ata_attribute before ID attribute_name value threshold raw_value
          = Ret (capture_normalized
                   (_set_int_or_zero before (name REALLOCATED_EVENTS) raw_value)
                   value threshold)) as Hattr.
  { unfold ata_attribute.
    rewrite string_eqb_eq, bool_decide_eq_false_2 by done.
    rewrite HID. reflexivity. }
  edestruct ata_line_stores as (ata_disks' & Hline & Hget & _); [exact Hattr|].
  eexists ata_disks', _. split; [exact Hline|]. split; [exact Hget|].
  unfold capture_normalized, _set_int_or_zero.
  change norm_value_key with "_normalized_value_Reallocated_Events".
  change norm_threshold_key with "_normalized_threshold_Reallocated_Events".
  change (name REALLOCATED_EVENTS) with "Reallocated_Events".
  destruct (Py.int value) as [v|]; [destruct (Py.int threshold) as [t|]|];
    repeat split;
    repeat first [ rewrite lookup_insert_eq
                 | rewrite lookup_insert_ne by discriminate ];
    done.
Qed.

Lemma reallocated_events_line_captures_pair_witness :
  ∃ ata_disks' disk,
    ata_line [("/dev/sda", {[ "_normalized_threshold_Reallocated_Events" := 36 ]})]
      (wdc_line "196" "Reallocated_Event_Count" "0x0032" "100" "n/a" "Old_age" "5")
      = Ret ata_disks'
    ∧ od_get "/dev/sda" ata_disks' = Some disk
    ∧ disk !! "Reallocated_Events" = Some 5
    ∧ disk !! "_normalized_value_Reallocated_Events" = Some 100
    ∧ disk !! "_normalized_threshold_Reallocated_Events" = Some 36.
Proof.
  exact (reallocated_events_line_captures_pair
           [("/dev/sda", {[ "_normalized_threshold_Reallocated_Events" := 36 ]})]
           (wdc_line "196" "Reallocated_Event_Count" "0x0032" "100" "n/a" "Old_age" "5")
           "/dev/sda" "196" "Reallocated_Event_Count" "100" "n/a" "5"
           eq_refl eq_refl eq_refl eq_refl eq_refl eq_refl eq_refl
           ltac:(discriminate)).
Defined.

(** ** The parser: the key/value dialect and the merge *)

(** X5. A key/value line that comes before any device line makes the
    key/value sub-parser raise, whatever the line holds: the variable for
    the current device is not bound yet. *)
Theorem key_value_line_before_device_raises (line : list string)
    (rest : list (list string)) :
  (∀ line0, head line = Some line0 → Py.contains "/dev" line0 = false) →
  ∃ e, _parse_nvme_lines (line :: rest) = Raise e.
Proof.
  intros Hdev. unfold _parse_nvme_lines. cbn [nvme_loop].
  enough (∃ e, nvme_line ([], None) line = Raise e) as [e ->] by by exists e.
  unfold nvme_line. destruct line as [|line0 line]; [by eexists|].
  rewrite (Hdev line0 eq_refl).
  destruct (Py.strip <$> _) as [|field [|value [|??]]]; try by eexists.
  unfold nvme_assign. cbn [snd or_raise mbind res_bind].
  repeat (destruct (String.eqb field _); [cbn; try by eexists|]).
  - destruct (Py.int16 _); cbn; by eexists.
  - destruct (data_units _); cbn; by eexists.
  - destruct (data_units _); cbn; by eexists.
  - by eexists.
Qed.

Lemma key_value_line_before_device_raises_witness :
  ∃ e, _parse_nvme_lines
         [ ["Percentage"; "Used:"; "3%"]; ["/dev/nvme0n1"; "NVMe"; "SAMSUNG"] ]
       = Raise e.
Proof.
  exact (key_value_line_before_device_raises ["Percentage"; "Used:"; "3%"]
           [ ["/dev/nvme0n1"; "NVMe"; "SAMSUNG"] ]
           ltac:(intros line0 [= <-]; reflexivity)).
Defined.

(** X7. With a current device, a key/value line with one colon whose field
    is none of Temperature, Critical Warning and the two Data Units is never
    an error: the value, its percent signs, periods and commas removed, is
    stored as its integer, or as 0 when it is not one, under the field name
    with underscores for spaces, in the dict of the current device. *)
Theorem key_value_field_int_or_zero (disks : Disks) (path : string)
    (line : list string) (line0 field value : string) :
  head line = Some line0 →
  Py.contains "/dev" line0 = false →
  Py.strip <$> Py.split ":" (Py.join " " line) = [field; value] →
  field ∉ ["Temperature"; "Critical Warning"; "Data Units Read"; "Data Units Written"] →
  nvme_line (disks, Some path) line
  = Ret (od_set path
           (<[Py.replace " " "_" field := int_or_zero (nvme_value value)]>
              (disk_of path disks))
           disks,
         Some path).
Proof.
  intros Hhead Hdev Hsplit Hfield. unfold nvme_line.
  destruct line as [|? line]; [done|]. injection Hhead as ->.
  rewrite Hdev, Hsplit.
  rewrite !string_eqb_eq.
  rewrite !bool_decide_eq_false_2; [done|..];
    intros ->; apply Hfield; set_solver.
Qed.

Lemma key_value_field_int_or_zero_witness :
  nvme_line ([("/dev/nvme0n1", ∅)], Some "/dev/nvme0n1") ["Percentage"; "Used:"; "n/a"]
  = Ret (od_set "/dev/nvme0n1"
           (<[Py.replace " " "_" "Percentage Used" := int_or_zero (nvme_value "n/a")]>
              (disk_of "/dev/nvme0n1" [("/dev/nvme0n1", ∅)]))
           [("/dev/nvme0n1", ∅)],
         Some "/dev/nvme0n1").
Proof.
  exact (key_value_field_int_or_zero [("/dev/nvme0n1", ∅)] "/dev/nvme0n1"
           ["Percentage"; "Used:"; "n/a"] "Percentage" "Percentage Used" "n/a"
           eq_refl eq_refl eq_refl
           ltac:(intros H; repeat (apply elem_of_cons in H as [H|H]; [discriminate H|]);
                 by apply elem_of_nil in H)).
Defined.

Section ordered_dict_merge.
Context {V : Type}.
Implicit Types (d : list (string * V)) (k : string) (v : V).

Lemma od_get_not_elem_of k d : k ∉ d.*1 → od_get k d = None.
Proof.
  induction d as [|[k' v'] d IH]; cbn [od_get]; [done|].
  rewrite fmap_cons. intros Hnin.
  destruct (String.eqb_spec k k') as [->|]; [|apply IH].
  - exfalso. apply Hnin, list_elem_of_here.
  - intros Hin. by apply Hnin, list_elem_of_further.
Qed.

(** In [{**d1, **d2}] a key of [d2] has the value of [d2]. *)
Lemma od_get_update k d1 d2 :
  NoDup d2.*1 →
  od_get k (od_update d1 d2)
  = match od_get k d2 with
    | Some v => Some v
    | None => od_get k d1
    end.
Proof.
  unfold od_update. revert d1.
  induction d2 as [|[k' v'] d2 IH]; intros d1 Hnd; [done|].
  rewrite fmap_cons in Hnd. apply NoDup_cons in Hnd as [Hk' Hnd].
  cbn [foldl od_get fst snd]. rewrite IH by done.
  destruct (String.eqb_spec k k') as [->|Hne].
  - rewrite od_get_not_elem_of by done. apply od_get_set_eq.
  - rewrite od_get_set_ne by done. done.
Qed.

End ordered_dict_merge.

(** X6. When both sub-parsers return, the section holds for every device
    path the dict of the key/value sub-parser if it has one, and the dict
    of the tabular sub-parser otherwise: a device that both dialects report
    keeps its key/value reading alone, its tabular attributes are not
    merged in. *)
Theorem key_value_reading_replaces_tabular (string_table : list (list string))
    (ata nvme : Disks) :
  _parse_ata_lines (List.filter is_ata_line string_table) = Ret ata →
  _parse_nvme_lines (List.filter is_nvme_line string_table) = Ret nvme →
  ∃ section,
    parse_raw_values string_table = Ret section
    ∧ ∀ path,
        od_get path section
        = match od_get path nvme with
          | Some disk => Some disk
          | None => od_get path ata
          end.
Proof.
  intros Hata Hnvme. exists (od_update ata nvme). split.
  - unfold parse_raw_values. by rewrite Hata, Hnvme.
  - intros path. apply od_get_update.
    unfold _parse_nvme_lines in Hnvme.
    destruct (nvme_loop ([], None) _) as [st|] eqn:Hloop; [|done].
    cbn in Hnvme. injection Hnvme as <-.
    apply (nvme_loop_NoDup _ ([], None) st (NoDup_nil_2) Hloop).
Qed.

Lemma key_value_reading_replaces_tabular_witness :
  ∃ section,
    parse_raw_values
      [ wdc_line "9" "Power_On_Hours" "0x0012" "100" "000" "Old_age" "1408";
        ["/dev/sda"; "NVMe"; "SAMSUNG"]; ["Percentage"; "Used:"; "3%"] ]
    = Ret section
    ∧ ∀ path,
        od_get path section
        = match od_get path [("/dev/sda", ({[ "Percentage_Used" := 3 ]} : Disk))] with
          | Some disk => Some disk
          | None => od_get path [("/dev/sda", ({[ "Power_On_Hours" := 1408 ]} : Disk))]
          end.
Proof.
  exact (key_value_reading_replaces_tabular
           [ wdc_line "9" "Power_On_Hours" "0x0012" "100" "000" "Old_age" "1408";
             ["/dev/sda"; "NVMe"; "SAMSUNG"]; ["Percentage"; "Used:"; "3%"] ]
           [("/dev/sda", {[ "Power_On_Hours" := 1408 ]})]
           [("/dev/sda", {[ "Percentage_Used" := 3 ]})]
           ltac:(compute_done) ltac:(compute_done)).
Defined.

(** ** Discovery and the check together *)

(** X8. Discovery yields at most one service per entry of the section, in
    the order of the section: the items of the services are a sublist of
    the device paths. *)
Theorem discovery_items_follow_section (section : Disks) :
  item <$> discover_smart_stats section `sublist_of` section.*1.
Proof.
  unfold discover_smart_stats.
  induction section as [|[path disk] section IH]; [done|].
  cbn [omap list_omap fst snd]. cbv zeta. rewrite fmap_cons.
  destruct (decide (captured disk = ∅)).
  - by apply sublist_cons.
  - rewrite fmap_cons. by apply sublist_skip.
Qed.

Section check_more.
Context `{API : AgentBasedAPI}.
Implicit Types (params : gmap string Z) (disk : Disk) (now : float)
  (vs : value_store) (attribute : DiskAttribute).


(** X17. With a baseline for Reallocated_Events among the parameters and
    a reading that lacks the normalized value or the normalized threshold,
    the verdict is normal and the display line has no hint, also when the
    raw value is above the baseline. *)
Theorem reallocated_events_without_pair params disk now vs (value ref_value : Z) :
  disk !! name REALLOCATED_EVENTS = Some value →
  params !! name REALLOCATED_EVENTS = Some ref_value →
  disk !! norm_value_key = None ∨ disk !! norm_threshold_key = None →
  check_attribute REALLOCATED_EVENTS params disk now vs
  = (vs, Ret [Result OK (infotext_of REALLOCATED_EVENTS value);
              Metric (name REALLOCATED_EVENTS) value]).
Proof.
  intros Hvalue Hparam Hpair. unfold check_attribute. simpl.
  simpl in Hvalue, Hparam. rewrite Hvalue, Hparam.
  unfold reallocated_events.
  destruct Hpair as [->| ->]; [done|].
  by destruct (disk !! norm_value_key).
Qed.



(** What one iteration yields: nothing, or a result that is normal or
    critical followed by the metric of the attribute with the value the
    reading holds. *)
Lemma check_attribute_shape attribute params disk now vs vs'
    (outputs : list CheckOutput) :
  check_attribute attribute params disk now vs = (vs', Ret outputs) →
  outputs = []
  ∨ ∃ state text value,
      outputs = [Result state text; Metric (name attribute) value]
      ∧ (state = OK ∨ state = CRIT)
      ∧ disk !! name attribute = Some value
      ∧ attribute ≠ TEMPERATURE.
Proof.
  unfold check_attribute.
  destruct (decide (attribute = TEMPERATURE)); [intros [= _ <-]; by left|].
  destruct (disk !! name attribute) as [value|]; [|intros [= _ <-]; by left].
  intros Hout. right.
  enough (∃ state text,
            outputs = [Result state text; Metric (name attribute) value]
            ∧ (state = OK ∨ state = CRIT)) as (state & text & ? & ?)
    by by exists state, text, value.
  revert Hout.
  destruct (decide (attribute = AVAILABLE_SPARE)) as [Hspare|Hspare].
  - destruct (disk !! "Available_Spare_Threshold") as [threshold|]; [|done].
    cbn [or_raise mbind res_bind mret res_ret].
    destruct (decide (attribute = REALLOCATED_EVENTS)) as [Hev|Hev]; [congruence|].
    destruct (decide (attribute = COMMAND_TIMEOUT_COUNTER)) as [Hct|Hct]; [congruence|].
    intros [= _ <-]. eexists _, _. split; [done|].
    destruct (value <? threshold)%Z; auto.
  - destruct (params !! name attribute) as [ref_value|];
      [|intros [= _ <-]; eauto].
    destruct (decide (attribute = REALLOCATED_EVENTS)) as [Hev|Hev].
    + destruct (decide (attribute = COMMAND_TIMEOUT_COUNTER)) as [Hct|Hct]; [congruence|].
      unfold reallocated_events.
      destruct (disk !! norm_value_key) as [norm_value|];
        [|intros [= _ <-]; eauto].
      destruct (disk !! norm_threshold_key) as [norm_threshold|];
        [|intros [= _ <-]; eauto].
      cbn [mbind option_bind].
      destruct (norm_value <=? norm_threshold)%Z; intros [= _ <-];
        eexists _, _; (split; [done|]); [auto|].
      destruct (value >? ref_value)%Z; auto.
    + destruct (decide (attribute = COMMAND_TIMEOUT_COUNTER)) as [Hct|Hct].
      * destruct (get_rate vs "cmd_timeout" now value) as [vs0 [rate|e0]];
          cbn [mbind res_bind mret res_ret]; [|done].
        unfold command_timeout.
        destruct (rate <? max_command_timeouts_per_second)%float;
          intros [= _ <-]; eexists _, _; (split; [done|]); auto.
      * intros [= _ <-]. eexists _, _. split; [done|].
        destruct (value >? ref_value)%Z; auto.
Qed.

(** The value store changes in one iteration only: the one of the command
    timeout counter, when the reading has it and the parameters a baseline
    for it. *)
Lemma check_attribute_store attribute params disk now vs vs'
    (r : res (list CheckOutput)) :
  check_attribute attribute params disk now vs = (vs', r) →
  vs' = vs
  ∨ (attribute = COMMAND_TIMEOUT_COUNTER
     ∧ ∃ value ref_value,
         disk !! name COMMAND_TIMEOUT_COUNTER = Some value
         ∧ params !! name COMMAND_TIMEOUT_COUNTER = Some ref_value).
Proof.
  unfold check_attribute.
  destruct (decide (attribute = TEMPERATURE)); [intros [= <- _]; by left|].
  destruct (disk !! name attribute) as [value|] eqn:Hvalue;
    [|intros [= <- _]; by left].
  destruct (decide (attribute = AVAILABLE_SPARE)).
  - destruct (disk !! "Available_Spare_Threshold") as [threshold|];
      cbn [or_raise mbind res_bind mret res_ret]; [|intros [= <- _]; by left].
    destruct (decide (attribute = REALLOCATED_EVENTS)); [congruence|].
    destruct (decide (attribute = COMMAND_TIMEOUT_COUNTER)); [congruence|].
    intros [= <- _]. by left.
  - destruct (params !! name attribute) as [ref_value|] eqn:Hparam;
      [|intros [= <- _]; by left].
    destruct (decide (attribute = COMMAND_TIMEOUT_COUNTER)) as [->|].
    + intros _. right. split; [done|]. by exists value, ref_value.
    + destruct (decide (attribute = REALLOCATED_EVENTS)).
      * destruct (reallocated_events _ _ _) as [[??]|]; intros [= <- _]; by left.
      * intros [= <- _]. by left.
Qed.

Lemma check_loop_yielded_inv (attributes : list DiskAttribute) params disk now vs
    (o : CheckOutput) :
  o ∈ yielded (check_loop attributes params disk now vs) →
  ∃ attribute vs0 vs1 outputs,
    attribute ∈ attributes
    ∧ check_attribute attribute params disk now vs0 = (vs1, Ret outputs)
    ∧ o ∈ outputs.
Proof.
  revert vs. induction attributes as [|a rest IH]; intros vs; cbn [check_loop].
  - intros Hin. by apply elem_of_nil in Hin.
  - destruct (check_attribute a params disk now vs) as [vs1 [outputs|e]] eqn:Ha;
      cbn [yielded]; [|intros Hin; by apply elem_of_nil in Hin].
    intros [Hin|Hin]%elem_of_app.
    + exists a, vs, vs1, outputs. split; [apply list_elem_of_here|done].
    + apply IH in Hin as (attribute & vs0 & vs2 & outs & Hmem & Hcheck & Ho).
      exists attribute, vs0, vs2, outs. split; [by apply list_elem_of_further|done].
Qed.

(** X11. Every metric that a run of the check yields carries the canonical
    name of a registry attribute other than Temperature and the value that
    the reading of the item holds under that name. *)
Theorem metrics_carry_the_reading (item : string) params (section : Disks) now vs
    (metric_name : string) (value : Z) :
  Metric metric_name value ∈ yielded (check_smart_stats item params section now vs) →
  ∃ disk attribute,
    od_get item section = Some disk
    ∧ attribute ≠ TEMPERATURE
    ∧ metric_name = name attribute
    ∧ disk !! metric_name = Some value.
Proof.
  unfold check_smart_stats.
  destruct (od_get item section) as [disk|];
    [|intros Hin; by apply elem_of_nil in Hin].
  intros (attribute & vs0 & vs1 & outputs & _ & Hcheck & Hin)%check_loop_yielded_inv.
  apply check_attribute_shape in Hcheck
    as [->|(state & text & v & -> & _ & Hvalue & Htemp)].
  { by apply elem_of_nil in Hin. }
  apply elem_of_cons in Hin as [[=]|Hin].
  apply list_elem_of_singleton in Hin. injection Hin as -> ->.
  by exists disk, attribute.
Qed.

(** X12. A run of the check yields normal and critical verdicts only:
    never a warning and never an unknown. *)
Theorem verdicts_are_normal_or_critical (item : string) params (section : Disks)
    now vs (state : State) (text : string) :
  Result state text ∈ yielded (check_smart_stats item params section now vs) →
  state = OK ∨ state = CRIT.
Proof.
  unfold check_smart_stats.
  destruct (od_get item section) as [disk|];
    [|intros Hin; by apply elem_of_nil in Hin].
  intros (attribute & vs0 & vs1 & outputs & _ & Hcheck & Hin)%check_loop_yielded_inv.
  apply check_attribute_shape in Hcheck
    as [->|(state' & text' & v & -> & Hstate & _)].
  { by apply elem_of_nil in Hin. }
  apply elem_of_cons in Hin as [[= -> ->]|Hin]; [done|].
  by apply list_elem_of_singleton in Hin.
Qed.

Lemma check_loop_metric_names (attributes : list DiskAttribute) params disk now vs :
  (metrics (yielded (check_loop attributes params disk now vs))).*1
  `sublist_of` name <$> attributes.
Proof.
  revert vs. induction attributes as [|a rest IH]; intros vs; cbn [check_loop]; [done|].
  destruct (check_attribute a params disk now vs) as [vs1 [outputs|e]] eqn:Ha;
    cbn [yielded]; [|apply sublist_nil_l].
  apply check_attribute_shape in Ha as [->|(state & text & v & -> & _)].
  - rewrite fmap_cons. apply sublist_cons, IH.
  - cbn [app metrics omap list_omap]. rewrite !fmap_cons. cbn [fst].
    apply sublist_skip, IH.
Qed.

(** X13. A run of the check yields at most one metric under each name, and
    the metrics come in the order of the registry. *)
Theorem metric_names_are_distinct (item : string) params (section : Disks) now vs :
  let names := (metrics (yielded (check_smart_stats item params section now vs))).*1 in
  NoDup names ∧ names `sublist_of` name <$> all_attributes.
Proof.
  intros names.
  assert (names `sublist_of` name <$> all_attributes) as Hsub.
  { subst names. unfold check_smart_stats.
    destruct (od_get item section) as [disk|]; [|apply sublist_nil_l].
    apply check_loop_metric_names. }
  split; [|done].
  apply (sublist_NoDup names (name <$> all_attributes)); [compute_done|done].
Qed.

Lemma check_loop_store_unchanged (attributes : list DiskAttribute) params disk now vs :
  disk !! name COMMAND_TIMEOUT_COUNTER = None
  ∨ params !! name COMMAND_TIMEOUT_COUNTER = None →
  store (check_loop attributes params disk now vs) = vs.
Proof.
  intros Hnone. revert vs.
  induction attributes as [|a rest IH]; intros vs; cbn [check_loop]; [done|].
  destruct (check_attribute a params disk now vs) as [vs1 r] eqn:Ha.
  assert (vs1 = vs) as ->.
  { apply check_attribute_store in Ha as [->|(_ & value & ref_value & Hv & Hp)];
      [done|]. destruct Hnone; congruence. }
  destruct r; cbn [store]; [apply IH|done].
Qed.

(** X14. The check leaves the value store as it found it unless the
    reading of the item has the command timeout counter and the parameters
    hold a baseline for it. *)
Theorem value_store_only_for_command_timeouts (item : string) params
    (section : Disks) now vs :
  (∀ disk, od_get item section = Some disk →
           disk !! name COMMAND_TIMEOUT_COUNTER = None
           ∨ params !! name COMMAND_TIMEOUT_COUNTER = None) →
  store (check_smart_stats item params section now vs) = vs.
Proof.
  intros Hnone. unfold check_smart_stats.
  destruct (od_get item section) as [disk|] eqn:Hitem; [|done].
  by apply check_loop_store_unchanged, Hnone.
Qed.

Lemma check_loop_app_raised (l1 l2 : list DiskAttribute) params disk now vs :
  raised (check_loop (l1 ++ l2) params disk now vs)
  = match raised (check_loop l1 params disk now vs) with
    | Some e => Some e
    | None => raised (check_loop l2 params disk now
                        (store (check_loop l1 params disk now vs)))
    end.
Proof.
  revert vs. induction l1 as [|a l1 IH]; intros vs; [done|].
  cbn [app check_loop].
  destruct (check_attribute a params disk now vs) as [vs1 [outputs|e]]; [|done].
  cbn [raised store]. apply IH.
Qed.

Lemma check_loop_app_store (l1 l2 : list DiskAttribute) params disk now vs :
  store (check_loop (l1 ++ l2) params disk now vs)
  = match raised (check_loop l1 params disk now vs) with
    | Some e => store (check_loop l1 params disk now vs)
    | None => store (check_loop l2 params disk now
                       (store (check_loop l1 params disk now vs)))
    end.
Proof.
  revert vs. induction l1 as [|a l1 IH]; intros vs; [done|].
  cbn [app check_loop].
  destruct (check_attribute a params disk now vs) as [vs1 [outputs|e]]; [|done].
  cbn [raised store]. apply IH.
Qed.

(** Iterations other than the two that can raise run through and leave the
    value store alone. *)
Lemma check_loop_quiet (attributes : list DiskAttribute) params disk now vs :
  COMMAND_TIMEOUT_COUNTER ∉ attributes →
  AVAILABLE_SPARE ∉ attributes →
  raised (check_loop attributes params disk now vs) = None
  ∧ store (check_loop attributes params disk now vs) = vs.
Proof.
  revert vs. induction attributes as [|a rest IH]; intros vs Hrate Hspare;
    cbn [check_loop]; [done|].
  apply not_elem_of_cons in Hrate as [Hrate1 Hrate2].
  apply not_elem_of_cons in Hspare as [Hspare1 Hspare2].
  destruct (check_attribute a params disk now vs) as [vs1 [outputs|e]] eqn:Ha.
  - assert (vs1 = vs) as ->.
    { apply check_attribute_store in Ha as [->|[-> _]]; done. }
    cbn [raised store]. by apply IH.
  - apply check_attribute_raise_inv in Ha as [[-> _]|[-> _]]; done.
Qed.

Lemma check_loop_cons attribute (rest : list DiskAttribute) params disk now vs :
  check_loop (attribute :: rest) params disk now vs
  = match check_attribute attribute params disk now vs with
    | (vs1, Raise e) => {| store := vs1; yielded := []; raised := Some e |}
    | (vs1, Ret outputs) =>
        let run := check_loop rest params disk now vs1 in
        {| store := store run; yielded := (outputs ++ yielded run)%list;
           raised := raised run |}
    end.
Proof. reflexivity. Qed.

(** The run of the check over the registry raises what the iteration of
    the command timeout counter raises, or else what the iteration of the
    spare capacity raises, and nothing otherwise. *)
Lemma check_loop_all_attributes params disk now vs :
  let run := check_loop all_attributes params disk now vs in
  match check_attribute COMMAND_TIMEOUT_COUNTER params disk now vs with
  | (vs1, Raise e) => raised run = Some e ∧ store run = vs1
  | (vs1, Ret _) =>
      store run = vs1
      ∧ raised run
        = match check_attribute AVAILABLE_SPARE params disk now vs1 with
          | (_, Raise e) => Some e
          | (_, Ret _) => None
          end
  end.
Proof.
  intros run. subst run.
  set (before := [REALLOCATED_SECTORS; POWER_ON_HOURS; SPIN_RETRIES; POWER_CYCLES;
                  END_TO_END_ERRORS; UNCORRECTABLE_ERRORS]).
  set (between := [TEMPERATURE; REALLOCATED_EVENTS; PENDING_SECTORS; UDMA_CRC_ERRORS;
                   CRC_ERRORS; CRITICAL_WARNING; MEDIA_AND_DATA_INTEGRITY_ERRORS]).
  set (after := [PERCENTAGE_USED; ERROR_INFORMATION_LOG_ENTRIES; DATA_UNITS_READ;
                 DATA_UNITS_WRITTEN]).
  assert (all_attributes
          = (before ++ COMMAND_TIMEOUT_COUNTER
               :: between ++ AVAILABLE_SPARE :: after)%list) as -> by reflexivity.
  assert (∀ l vs0,
            l = before ∨ l = between ∨ l = after →
            raised (check_loop l params disk now vs0) = None
            ∧ store (check_loop l params disk now vs0) = vs0) as Hquiet.
  { intros l vs0 Hl. apply check_loop_quiet;
      destruct Hl as [->|[->| ->]]; compute_done. }
  clearbody before between after.
  rewrite check_loop_app_raised, check_loop_app_store.
  destruct (Hquiet before vs) as [Hr Hs]; [by left|].
  rewrite Hr, Hs. clear Hr Hs. rewrite check_loop_cons.
  destruct (check_attribute COMMAND_TIMEOUT_COUNTER params disk now vs)
    as [vs1 [outputs|e]]; [|done].
  cbn [raised store].
  rewrite check_loop_app_raised, check_loop_app_store.
  destruct (Hquiet between vs1) as [Hr Hs]; [by right; left|].
  rewrite Hr, Hs. clear Hr Hs. rewrite check_loop_cons.
  destruct (check_attribute AVAILABLE_SPARE params disk now vs1)
    as [vs2 [outputs2|e]] eqn:Hspare; cbn [raised store].
  - apply check_attribute_store in Hspare as [Heq|[? _]]; [|done].
    destruct (Hquiet after vs2) as [Hr Hs]; [by right; right|].
    by rewrite Hr, Hs.
  - by apply check_attribute_store in Hspare as [Heq|[? _]].
Qed.


Lemma check_attribute_rate_raises params disk now vs vs' (value ref_value : Z) (e : exn) :
  disk !! name COMMAND_TIMEOUT_COUNTER = Some value →
  params !! name COMMAND_TIMEOUT_COUNTER = Some ref_value →
  get_rate vs "cmd_timeout" now value = (vs', Raise e) →
  check_attribute COMMAND_TIMEOUT_COUNTER params disk now vs = (vs', Raise e).
Proof.
  intros Hvalue Hparam Hrate. unfold check_attribute. simpl.
  simpl in Hvalue, Hparam. rewrite Hvalue, Hparam.
  destruct (decide ((if (value >? ref_value)%Z then CRIT else OK) = OK));
    by rewrite Hrate.
Qed.

(** X15. When the reading has the command timeout counter, the parameters
    hold a baseline for it and [get_rate] raises, the run of the check ends
    with that exception: it is not caught, a caller that collects the
    generator gets no result, and the value store is the one [get_rate]
    left. *)
Theorem rate_failure_is_raised (item : string) params (section : Disks) disk
    now vs vs' (value ref_value : Z) (e : exn) :
  od_get item section = Some disk →
  disk !! name COMMAND_TIMEOUT_COUNTER = Some value →
  params !! name COMMAND_TIMEOUT_COUNTER = Some ref_value →
  get_rate vs "cmd_timeout" now value = (vs', Raise e) →
  let run := check_smart_stats item params section now vs in
  raised run = Some e ∧ store run = vs' ∧ collect run = Raise e.
Proof.
  intros Hitem Hvalue Hparam Hrate run. subst run.
  unfold collect, check_smart_stats. rewrite Hitem.
  pose proof (check_loop_all_attributes params disk now vs) as Hall.
  cbv zeta in Hall.
  rewrite (check_attribute_rate_raises _ _ _ _ _ _ _ _ Hvalue Hparam Hrate) in Hall.
  destruct Hall as [-> ->]. done.
Qed.


End check_more.

(** ** The further properties on concrete readings *)


Lemma reallocated_events_without_pair_witness :
  check_attribute (API := counter_api) REALLOCATED_EVENTS {[ "Reallocated_Events" := 0 ]}
    {[ "Reallocated_Events" := 8; "_normalized_value_Reallocated_Events" := 1 ]}
    0%float (∅ : gmap string (float * Z))
  = (∅, Ret [Result OK (infotext_of (API := counter_api) REALLOCATED_EVENTS 8);
             Metric (name REALLOCATED_EVENTS) 8]).
Proof.
  exact (reallocated_events_without_pair (API := counter_api)
           {[ "Reallocated_Events" := 0 ]}
           {[ "Reallocated_Events" := 8; "_normalized_value_Reallocated_Events" := 1 ]}
           0%float (∅ : gmap string (float * Z)) 8 0
           eq_refl eq_refl (or_intror eq_refl)).
Defined.


Lemma value_store_only_for_command_timeouts_witness :
  store (check_smart_stats (API := counter_api) "/dev/sda"
           {[ "Pending_Sectors" := 0 ]}
           [("/dev/sda", {[ "Pending_Sectors" := 8; "Command_Timeout_Counter" := 3 ]})]
           0%float seen_at_zero)
  = seen_at_zero.
Proof.
  apply (value_store_only_for_command_timeouts (API := counter_api)).
  intros disk Hdisk. right. reflexivity.
Defined.

Lemma rate_failure_is_raised_witness :
  let disk : Disk := {[ "Pending_Sectors" := 8; "Command_Timeout_Counter" := 3 ]} in
  let run := check_smart_stats (API := counter_api) "/dev/sda"
               {[ "Command_Timeout_Counter" := 0 ]} [("/dev/sda", disk)]
               0%float (∅ : gmap string (float * Z)) in
  raised run = Some GetRateError
  ∧ store run = {[ "cmd_timeout" := (0%float, 3) ]}
  ∧ collect run = Raise GetRateError.
Proof.
  exact (rate_failure_is_raised (API := counter_api) "/dev/sda"
           {[ "Command_Timeout_Counter" := 0 ]}
           [("/dev/sda", {[ "Pending_Sectors" := 8; "Command_Timeout_Counter" := 3 ]})]
           {[ "Pending_Sectors" := 8; "Command_Timeout_Counter" := 3 ]}
           0%float (∅ : gmap string (float * Z))
           {[ "cmd_timeout" := (0%float, 3) ]} 3 0 GetRateError
           eq_refl eq_refl eq_refl eq_refl).
Defined.


(** ** The display names *)

(** X18. The display names of the registry hold no underscore and are
    pairwise distinct, as the canonical names are; and but for
    Power_On_Hours, shown as Powered on, the display name is the canonical
    name with spaces for underscores, up to the case of the letters. *)
Theorem display_names_of_the_registry :
  NoDup (name <$> all_attributes)
  ∧ NoDup (_display_attribute_name <$> all_attributes)
  ∧ (∀ attribute, Py.contains "_" (_display_attribute_name attribute) = false)
  ∧ (∀ attribute,
       attribute ≠ POWER_ON_HOURS →
       Py.lower (_display_attribute_name attribute)
       = Py.lower (Py.replace "_" " " (name attribute))).
Proof.
  split; [compute_done|]. split; [compute_done|]. split.
  - intros attribute. destruct attribute; compute_done.
  - intros attribute Hnot.
    destruct attribute; try (exfalso; exact (Hnot eq_refl)); compute_done.
Qed.

(** ** A completed run reports every attribute of the reading *)

Section check_complete.
Context `{API : AgentBasedAPI}.
Implicit Types (params : gmap string Z) (disk : Disk) (now : float)
  (vs : value_store) (attribute : DiskAttribute).



End check_complete.


(** ** More on the two sub-parsers *)

(** X20. With a current device, a key/value line whose field is
    Temperature stores the integer of the first token of its value, the
    percent signs, periods and commas removed, or 0 when that token is not
    an integer; a value without any token raises [IndexError]. *)
Theorem temperature_field_takes_first_token (disks : Disks) (path : string)
    (line : list string) (line0 value : string) :
  head line = Some line0 →
  Py.contains "/dev" line0 = false →
  Py.strip <$> Py.split ":" (Py.join " " line) = ["Temperature"; value] →
  nvme_line (disks, Some path) line
  = match head (Py.words (nvme_value value)) with
    | Some token =>
        Ret (od_set path
               (<["Temperature" := int_or_zero token]> (disk_of path disks))
               disks,
             Some path)
    | None => Raise IndexError
    end.
Proof.
  intros Hhead Hdev Hsplit. unfold nvme_line.
  destruct line as [|? line]; [done|]. injection Hhead as ->.
  rewrite Hdev, Hsplit. cbn [String.eqb Ascii.eqb Bool.eqb andb].
  cbn [snd or_raise mbind res_bind mret res_ret]. unfold nvme_value.
  by destruct (head (Py.words _)).
Qed.

Lemma temperature_field_takes_first_token_witness :
  nvme_line ([("/dev/nvme0n1", ∅)], Some "/dev/nvme0n1") ["Temperature:"; "35"; "Celsius"]
  = Ret ([("/dev/nvme0n1", {[ "Temperature" := 35 ]})], Some "/dev/nvme0n1").
Proof.
  exact (temperature_field_takes_first_token [("/dev/nvme0n1", ∅)] "/dev/nvme0n1"
           ["Temperature:"; "35"; "Celsius"] "Temperature:" "35 Celsius"
           eq_refl eq_refl eq_refl).
Defined.

Lemma ata_attribute_no_unknown_key (disk disk' : Disk)
    (ID attribute_name value threshold raw_value : string) :
  ata_attribute disk ID attribute_name value threshold raw_value = Ret disk' →
  disk !! "Unknown_Attribute" = None →
  disk' !! "Unknown_Attribute" = None.
Proof.
  unfold ata_attribute. rewrite string_eqb_eq.
  destruct (bool_decide (attribute_name = "Unknown_Attribute")) eqn:Hname;
    [by intros [= <-]|].
  apply bool_decide_eq_false in Hname.
  destruct (Py.int ID) as [id|]; cbn [or_raise mbind res_bind]; [|done].
  destruct ((id =? CRC_ERRORS_ID)%Z && _).
  { intros [= <-] Hnone. unfold _set_int_or_zero.
    by rewrite lookup_insert_ne. }
  destruct (ATA_ID_TO_DISK_ATTRIBUTE id) as [a|].
  - assert (name a ≠ "Unknown_Attribute") as Ha by by destruct a.
    destruct (decide (a = REALLOCATED_EVENTS)); intros [= <-] Hnone;
      unfold capture_normalized, _set_int_or_zero.
    + destruct (Py.int value); [destruct (Py.int threshold)|];
        repeat (rewrite lookup_insert_ne by done); done.
    + by rewrite lookup_insert_ne.
  - destruct (disk !! attribute_name); intros [= <-] Hnone; [done|].
    unfold _set_int_or_zero. by rewrite lookup_insert_ne.
Qed.

Lemma ata_loop_no_unknown_key (ata_lines : list (list string))
    (ata_disks ata_disks' : Disks) :
  (∀ path disk, od_get path ata_disks = Some disk →
                disk !! "Unknown_Attribute" = None) →
  ata_loop ata_disks ata_lines = Ret ata_disks' →
  ∀ path disk, od_get path ata_disks' = Some disk →
               disk !! "Unknown_Attribute" = None.
Proof.
  revert ata_disks. induction ata_lines as [|line rest IH]; intros ata_disks Hinv.
  { by intros [= <-]. }
  cbn [ata_loop].
  destruct (ata_line ata_disks line) as [disks1|e] eqn:Hline;
    cbn [mbind res_bind]; [|done].
  apply IH. intros path disk Hget.
  unfold ata_line in Hline.
  do 13 (destruct line as [|? line]; [done|]).
  rewrite od_get_setdefault_eq in Hline. cbn [default id] in Hline.
  destruct (ata_attribute _ _ _ _ _ _) as [disk'|] eqn:Hattr;
    cbn [mbind res_bind mret res_ret] in Hline; [|done].
  injection Hline as <-.
  match type of Hget with
  | od_get path (od_set ?p _ _) = _ => destruct (decide (p = path)) as [->|Hne]
  end.
  - rewrite od_get_set_eq in Hget. injection Hget as <-.
    apply (ata_attribute_no_unknown_key _ _ _ _ _ _ _ Hattr).
    destruct (od_get path ata_disks) as [d|] eqn:Hd; [by apply (Hinv path)|done].
  - rewrite od_get_set_ne, od_get_setdefault_ne in Hget by done.
    by apply (Hinv path).
Qed.

(** X21. No reading that the tabular sub-parser returns has an entry under
    the name Unknown_Attribute, whatever lines it was given. *)
Theorem tabular_readings_hold_no_unknown_attribute (ata_lines : list (list string))
    (ata_disks : Disks) (path : string) (disk : Disk) :
  _parse_ata_lines ata_lines = Ret ata_disks →
  od_get path ata_disks = Some disk →
  disk !! "Unknown_Attribute" = None.
Proof.
  intros Hparse. apply (ata_loop_no_unknown_key ata_lines [] ata_disks); [done|].
  exact Hparse.
Qed.

Lemma tabular_readings_hold_no_unknown_attribute_witness :
  (default ∅ (od_get "/dev/sda" wdc_section) : Disk) !! "Unknown_Attribute" = None.
Proof.
  assert (_parse_ata_lines wdc_string_table = Ret wdc_section) as Hparse
    by compute_done.
  assert (od_get "/dev/sda" wdc_section
          = Some (default ∅ (od_get "/dev/sda" wdc_section))) as Hget
    by reflexivity.
  exact (tabular_readings_hold_no_unknown_attribute wdc_string_table wdc_section
           "/dev/sda" _ Hparse Hget).
Defined.

Lemma metrics_carry_the_reading_witness :
  ∃ disk attribute,
    od_get "/dev/sda" [("/dev/sda", ({[ "Power_Cycles" := 523 ]} : Disk))] = Some disk
    ∧ attribute ≠ TEMPERATURE
    ∧ "Power_Cycles" = name attribute
    ∧ disk !! "Power_Cycles" = Some 523.
Proof.
  assert (Metric "Power_Cycles" 523
          ∈ yielded (check_smart_stats (API := counter_api) "/dev/sda" ∅
                       [("/dev/sda", {[ "Power_Cycles" := 523 ]})] 0%float
                       (∅ : gmap string (float * Z)))) as Hin.
  { vm_compute. apply list_elem_of_further, list_elem_of_here. }
  exact (metrics_carry_the_reading (API := counter_api) "/dev/sda" ∅
           [("/dev/sda", {[ "Power_Cycles" := 523 ]})] 0%float
           (∅ : gmap string (float * Z)) "Power_Cycles" 523 Hin).
Defined.

Lemma verdicts_are_normal_or_critical_witness :
  CRIT = OK ∨ CRIT = CRIT.
Proof.
  assert (Result CRIT "Pending sectors: 8 (during discovery: 0 (!!))"
          ∈ yielded (check_smart_stats (API := counter_api) "/dev/sda"
                       {[ "Pending_Sectors" := 0 ]}
                       [("/dev/sda", {[ "Pending_Sectors" := 8 ]})] 0%float
                       (∅ : gmap string (float * Z)))) as Hin.
  { vm_compute. apply list_elem_of_here. }
  exact (verdicts_are_normal_or_critical (API := counter_api) "/dev/sda"
           {[ "Pending_Sectors" := 0 ]}
           [("/dev/sda", {[ "Pending_Sectors" := 8 ]})] 0%float
           (∅ : gmap string (float * Z)) CRIT
           "Pending sectors: 8 (during discovery: 0 (!!))" Hin).
Defined.
